(** * Mistral OCR ingestion: a shallow embedding of
      api/server/services/Files/MistralOCR/crud.js

    The module uploads a file to the Mistral API, fetches a signed URL for
    it, runs the OCR endpoint on that URL and folds the page-structured
    answer into one text and one list of images.

    Conventions of the embedding.
    - A JavaScript string is a [string]: a sequence of code units, here the
      code units below 256.  [String.length] is the [.length] of the source.
    - A value that may be [undefined] is an [option]; [None] is [undefined].
    - The collaborators the module imports but does not define (the HTTP
      client, the secret store, the logger, the helpers of
      librechat-data-provider) are the fields of the class [World].
    - Effects are explicit: a computation of type [M A] takes the log of the
      events so far and returns either a thrown error or a value, with the
      extended log. *)

From Stdlib Require Import Ascii String NArith Bool Arith Lia.
From stdpp Require Import base strings gmap list pretty.

(** ** JavaScript string primitives used by the module *)

Module Js.

(** The line feed, written ['\n'] in the source. *)
Definition LF : string := String (ascii_of_N 10) "".

(** [String.prototype.toLowerCase], on the code units below 256: the
    letters A-Z and the Latin-1 capitals (all of U+00C0..U+00DE but the
    multiplication sign) move up by 32. *)
Definition toLowerCase_unit (c : ascii) : ascii :=
  let n := N_of_ascii c in
  if ((65 <=? n) && (n <=? 90)
      || (192 <=? n) && (n <=? 222) && negb (n =? 215))%N
  then ascii_of_N (n + 32) else c.

Fixpoint toLowerCase (s : string) : string :=
  match s with
  | EmptyString => EmptyString
  | String c s' => String (toLowerCase_unit c) (toLowerCase s')
  end.

(** White space and line terminators below 256, as [trim] strips them:
    TAB, LF, VT, FF, CR, SP and NBSP. *)
Definition is_whitespace (c : ascii) : bool :=
  let n := N_of_ascii c in
  ((9 <=? n) && (n <=? 13) || (n =? 32) || (n =? 160))%N.

Fixpoint trimStart (s : string) : string :=
  match s with
  | EmptyString => EmptyString
  | String c s' => if is_whitespace c then trimStart s' else s
  end.

Fixpoint trimEnd (s : string) : string :=
  match s with
  | EmptyString => EmptyString
  | String c s' =>
      match trimEnd s' with
      | EmptyString => if is_whitespace c then EmptyString else String c EmptyString
      | t => String c t
      end
  end.

(** [String.prototype.trim]. *)
Definition trim (s : string) : string := trimEnd (trimStart s).

(** [s.startsWith(p)]. *)
Definition startsWith (s p : string) : bool := String.prefix p s.

(** Truthiness of a string: every string but the empty one. *)
Definition truthy (s : string) : bool := negb (String.eqb s "").

(** [v || d] for a string or [undefined] left operand. *)
Definition or_else (v : option string) (d : string) : string :=
  match v with
  | Some s => if truthy s then s else d
  | None => d
  end.

(** A default parameter value [x = d]: it replaces [undefined] only. *)
Definition default_param {A} (v : option A) (d : A) : A :=
  match v with
  | Some x => x
  | None => d
  end.

(** [`${v}`] in a template literal. *)
Definition template (v : option string) : string :=
  match v with
  | Some s => s
  | None => "undefined"
  end.

End Js.

(** ** Regular expressions, as far as the module's literal needs them *)

Module Regex.

Inductive regex : Type :=
| Eps                        (* the empty pattern *)
| Lit (c : ascii)            (* a pattern character *)
| Seq (r1 r2 : regex)        (* r1 r2 *)
| Alt (r1 r2 : regex)        (* r1 | r2 *)
| Opt (r : regex)            (* r? , greedy *)
| End.                       (* $ , without the m flag: end of input *)

(** Canonicalize of the [i] flag (no [u] flag): a code unit is compared
    by its upper-case form.  Below 256 that moves a-z and the Latin-1
    small letters (U+00E0..U+00FE but the division sign) down by 32; the
    micro sign, the sharp s and y-diaeresis stay, their upper-case forms
    are not single code units below 256. *)
Definition canonicalize (c : ascii) : ascii :=
  let n := N_of_ascii c in
  if ((97 <=? n) && (n <=? 122)
      || (224 <=? n) && (n <=? 254) && negb (n =? 247))%N
  then ascii_of_N (n - 32) else c.

Definition unit_matches (ignoreCase : bool) (p c : ascii) : bool :=
  if ignoreCase then Ascii.eqb (canonicalize p) (canonicalize c)
  else Ascii.eqb p c.

(** The backtracking matcher: [run i r s] lists, in the order the engine
    tries them, the remainders of [s] after a match of [r] at its
    start. *)
Fixpoint run (ignoreCase : bool) (r : regex) (s : string) : list string :=
  match r with
  | Eps => [s]
  | Lit p =>
      match s with
      | String c s' => if unit_matches ignoreCase p c then [s'] else []
      | EmptyString => []
      end
  | Seq r1 r2 => flat_map (run ignoreCase r2) (run ignoreCase r1 s)
  | Alt r1 r2 => run ignoreCase r1 s ++ run ignoreCase r2 s
  | Opt r1 => run ignoreCase r1 s ++ [s]
  | End =>
      match s with
      | EmptyString => [s]
      | String _ _ => []
      end
  end.

Definition matches_at (ignoreCase : bool) (r : regex) (s : string) : bool :=
  match run ignoreCase r s with
  | [] => false
  | _ :: _ => true
  end.

(** [r.test(s)] for a regex without the g and y flags: a match may start
    at any index of [s], the end of [s] included. *)
Fixpoint test (ignoreCase : bool) (r : regex) (s : string) : bool :=
  matches_at ignoreCase r s ||
  match s with
  | EmptyString => false
  | String _ s' => test ignoreCase r s'
  end.

(** A run of pattern characters such as [png]. *)
Fixpoint word (w : string) : regex :=
  match w with
  | EmptyString => Eps
  | String c w' => Seq (Lit c) (word w')
  end.

End Regex.

(** ** Data model *)

(** [TCustomConfig['ocr']]: each field may be absent. *)
Record OcrConfig : Type := {
  ocr_apiKey : option string;
  ocr_baseURL : option string;
  ocr_mistralModel : option string;
}.

(** The part of the Express request the module reads: [req.user.id] and
    [req.app.locals?.ocr]. *)
Record ServerRequest : Type := {
  req_user_id : string;
  req_app_locals_ocr : option OcrConfig;
}.

(** [Express.Multer.File]: [path], [originalname], [mimetype]. *)
Record MulterFile : Type := {
  file_path : string;
  file_originalname : option string;
  file_mimetype : option string;
}.

Record OcrImage : Type := { image_base64 : option string }.

Record OcrPage : Type := {
  page_markdown : string;
  page_images : option (list OcrImage);
}.

(** [res.data] of the three endpoints: the file metadata carries [id], the
    signed URL answer [url], the OCR answer [pages]. A field an answer does
    not carry reads as [undefined]. *)
Record ResponseData : Type := {
  data_id : option string;
  data_url : option string;
  data_pages : option (list OcrPage);
}.

(** The object [uploadMistralOCR] returns. *)
Record IngestionResult : Type := {
  filename : option string;
  bytes : nat;
  filepath : string;
  text : string;
  images : list string;
}.

(** Values of the JSON body posted to the OCR endpoint. *)
#[warnings="-register-all"]
Inductive JsValue : Type :=
| JsUndefined
| JsBool (b : bool)
| JsString (s : string)
| JsObject (fields : list (string * JsValue)).

Definition js_of_string (v : option string) : JsValue :=
  match v with
  | Some s => JsString s
  | None => JsUndefined
  end.

(** Property lookup [o[k]] on an object literal: the last binding of a key
    wins. *)
Fixpoint js_get_fields (fields : list (string * JsValue)) (k : string) : JsValue :=
  match fields with
  | [] => JsUndefined
  | (k', v) :: rest =>
      match js_get_fields rest k with
      | JsUndefined => if String.eqb k' k then v else JsUndefined
      | found => found
      end
  end.

Definition js_get (o : JsValue) (k : string) : JsValue :=
  match o with
  | JsObject fields => js_get_fields fields k
  | _ => JsUndefined
  end.

(** A field appended to the multipart form. *)
Inductive FormField : Type :=
| FieldValue (name value : string)
| FieldFile (name : string) (streamPath : string) (fileName : string).

Inductive RequestBody : Type :=
| BodyForm (form : list FormField)
| BodyJson (v : JsValue).

Inductive Limit : Type := LimitDefault | LimitInfinity.

Record RequestConfig : Type := {
  headers : list (string * string);
  maxBodyLength : Limit;
  maxContentLength : Limit;
}.

(** Thrown values. *)
Inductive JsError : Type :=
| Rejected (message : string)   (* raised by a collaborator *)
| TypeError (message : string)  (* raised by the engine *)
| NewError (message : string).  (* [new Error(message)] *)

Definition error_message (e : JsError) : string :=
  match e with
  | Rejected m | TypeError m | NewError m => m
  end.

(** ** Effects *)

Inductive Callee : Type :=
| FnUploadDocumentToMistral
| FnGetSignedUrl
| FnPerformOCR.

Inductive Event : Type :=
| EvCall (f : Callee)
| EvLoadAuthValues (userId : string) (authFields : list string) (optional : gset string)
| EvAxiosPost (url : string) (body : RequestBody) (config : RequestConfig)
| EvAxiosGet (url : string) (config : RequestConfig)
| EvLoggerError (label message : string)
| EvLogAxiosError (error : JsError) (message : string).

Definition Log : Type := list Event.

Definition M (A : Type) : Type := Log → (JsError + A) * Log.

Definition ret {A} (a : A) : M A := λ t, (inr a, t).

Definition bind {A B} (m : M A) (k : A → M B) : M B :=
  λ t, match m t with
       | (inl e, t') => (inl e, t')
       | (inr a, t') => k a t'
       end.

Definition throw {A} (e : JsError) : M A := λ t, (inl e, t).

Definition try_catch {A} (m : M A) (handler : JsError → M A) : M A :=
  λ t, match m t with
       | (inl e, t') => handler e t'
       | (inr a, t') => (inr a, t')
       end.

Definition emit (ev : Event) : M unit := λ t, (inr tt, t ++ [ev]).

(** The settlement of a promise. *)
Definition settle {A} (r : JsError + A) : M A := λ t, (r, t).

#[global] Instance M_ret : MRet M := @ret.
#[global] Instance M_bind : MBind M := λ A B k m, bind m k.

(** ** The collaborators

    What crud.js imports and calls without defining it.  [axios_post] and
    [axios_get] answer with [res.data] or reject; [loadAuthValues] is the
    user-scoped secret store of ~/server/services/Tools/credentials. *)

Class World : Type := {
  (** [envVarRegex.test(s)] *)
  envVarRegex_test : string → bool;
  (** [extractVariableName(s)], the name inside a placeholder *)
  extractVariableName : string → string;
  (** [extractEnvVariable(s)], the value a placeholder stands for *)
  extractEnvVariable : string → string;
  (** [FileSources.mistral_ocr] *)
  FileSources_mistral_ocr : string;
  (** [loadAuthValues({ userId, authFields, optional })] *)
  loadAuthValues : string → list string → gset string → JsError + gmap string string;
  (** [axios.post(url, body, config)] *)
  axios_post : string → RequestBody → RequestConfig → JsError + ResponseData;
  (** [axios.get(url, config)] *)
  axios_get : string → RequestConfig → JsError + ResponseData;
  (** [logAxiosError({ error, message })], the text of the logged line *)
  logAxiosError : JsError → string → string;
  (** [path.basename(p)] *)
  path_basename : string → string;
  (** [form.getHeaders()] *)
  form_getHeaders : list FormField → list (string * string);
}.

(** [Array.prototype.forEach]: the callback receives the element and its
    index; [S] is the state of the variables the callback assigns. *)
Fixpoint forEach_from {A S : Type} (callback : S → A → nat → S)
    (index : nat) (l : list A) (s : S) : S :=
  match l with
  | [] => s
  | x :: l' => forEach_from callback (index + 1) l' (callback s x index)
  end.

Definition forEach {A S : Type} (callback : S → A → nat → S) (l : list A) (s : S) : S :=
  forEach_from callback 0 l s.

Section MistralOCR.

Context `{W : World}.

Definition default_baseURL : string := "https://api.mistral.ai/v1".

(** crud.js, lines 27-53. *)
Definition uploadDocumentToMistral
    (filePath : string) (fileName : option string)
    (apiKey : option string) (baseURL : option string) : M ResponseData :=
  emit (EvCall FnUploadDocumentToMistral);;
  let fileName := Js.default_param fileName "" in
  let baseURL := Js.default_param baseURL default_baseURL in
  let form := [FieldValue "purpose" "ocr"] in
  let actualFileName :=
    if Js.truthy fileName then fileName else path_basename filePath in
  let fileStream := filePath in
  let form := form ++ [FieldFile "file" fileStream actualFileName] in
  let url := baseURL +:+ "/files" in
  let config :=
    {| headers := ("Authorization", "Bearer " +:+ Js.template apiKey)
                  :: form_getHeaders form;
       maxBodyLength := LimitInfinity;
       maxContentLength := LimitInfinity |} in
  try_catch
    (emit (EvAxiosPost url (BodyForm form) config);;
     settle (axios_post url (BodyForm form) config))
    (λ error,
       emit (EvLoggerError "Error uploading document to Mistral:" (error_message error));;
       throw error).

(** crud.js, lines 55-72. *)
Definition getSignedUrl
    (apiKey : option string) (fileId : option string)
    (expiry : option nat) (baseURL : option string) : M ResponseData :=
  emit (EvCall FnGetSignedUrl);;
  let expiry := Js.default_param expiry 24 in
  let baseURL := Js.default_param baseURL default_baseURL in
  let url :=
    baseURL +:+ "/files/" +:+ Js.template fileId +:+ "/url?expiry=" +:+ pretty expiry in
  let config :=
    {| headers := [("Authorization", "Bearer " +:+ Js.template apiKey)];
       maxBodyLength := LimitDefault;
       maxContentLength := LimitDefault |} in
  try_catch
    (emit (EvAxiosGet url config);;
     settle (axios_get url config))
    (λ error,
       emit (EvLoggerError "Error fetching signed URL:" (error_message error));;
       throw error).

(** The JSON body of the OCR request, crud.js lines 90 and 94-101. *)
Definition performOCR_body
    (url : option string) (documentType : string) (model : string) : JsValue :=
  let documentKey :=
    if String.eqb documentType "image_url" then "image_url" else "document_url" in
  JsObject
    [("model", JsString model);
     ("include_image_base64", JsBool false);
     ("document",
      JsObject [("type", JsString documentType); (documentKey, js_of_string url)])].

(** crud.js, lines 83-114. *)
Definition performOCR
    (apiKey : option string) (url : option string)
    (documentType : option string) (model : option string)
    (baseURL : option string) : M ResponseData :=
  emit (EvCall FnPerformOCR);;
  let documentType := Js.default_param documentType "document_url" in
  let model := Js.default_param model "mistral-ocr-latest" in
  let baseURL := Js.default_param baseURL default_baseURL in
  let body := BodyJson (performOCR_body url documentType model) in
  let config :=
    {| headers := [("Content-Type", "application/json");
                   ("Authorization", "Bearer " +:+ Js.template apiKey)];
       maxBodyLength := LimitDefault;
       maxContentLength := LimitDefault |} in
  try_catch
    (emit (EvAxiosPost (baseURL +:+ "/ocr") body config);;
     settle (axios_post (baseURL +:+ "/ocr") body config))
    (λ error,
       emit (EvLoggerError "Error performing OCR:" (error_message error));;
       throw error).

(** *** uploadMistralOCR, crud.js lines 129-223, block by block *)

(** Lines 134-160: the API key and the base URL in effect. *)
Definition uploadMistralOCR_credentials
    (req : ServerRequest) (ocrConfig : OcrConfig) : M (option string * option string) :=
  let apiKeyConfig := Js.or_else (ocr_apiKey ocrConfig) "" in
  let baseURLConfig := Js.or_else (ocr_baseURL ocrConfig) "" in
  let isApiKeyEnvVar := envVarRegex_test apiKeyConfig in
  let isBaseURLEnvVar := envVarRegex_test baseURLConfig in
  let isApiKeyEmpty := negb (Js.truthy (Js.trim apiKeyConfig)) in
  let isBaseURLEmpty := negb (Js.truthy (Js.trim baseURLConfig)) in
  if isApiKeyEnvVar || isBaseURLEnvVar || isApiKeyEmpty || isBaseURLEmpty then
    let apiKeyVarName :=
      if isApiKeyEnvVar then extractVariableName apiKeyConfig else "OCR_API_KEY" in
    let baseURLVarName :=
      if isBaseURLEnvVar then extractVariableName baseURLConfig else "OCR_BASEURL" in
    emit (EvLoadAuthValues (req_user_id req) [baseURLVarName; apiKeyVarName]
                           {[baseURLVarName]});;
    authValues ← settle (loadAuthValues (req_user_id req) [baseURLVarName; apiKeyVarName]
                                        {[baseURLVarName]});
    let apiKey := (authValues : gmap string string) !! apiKeyVarName in
    let baseURL := authValues !! baseURLVarName in
    mret (apiKey, baseURL)
  else
    mret (Some apiKeyConfig, Some baseURLConfig).

(** Lines 169-172: the model identifier. *)
Definition uploadMistralOCR_model (ocrConfig : OcrConfig) : string :=
  let modelConfig := Js.or_else (ocr_mistralModel ocrConfig) "" in
  if envVarRegex_test modelConfig then extractEnvVariable modelConfig
  else Js.or_else (Some (Js.trim modelConfig)) "mistral-ocr-latest".

(** Line 183, the literal [/\.(png|jpe?g|gif|bmp|webp|tiff?)$/i]. *)
Definition image_extension_regex : Regex.regex :=
  Regex.Seq (Regex.Lit ".")
    (Regex.Seq
       (Regex.Alt (Regex.word "png")
       (Regex.Alt (Regex.Seq (Regex.word "jp")
                     (Regex.Seq (Regex.Opt (Regex.Lit "e")) (Regex.Lit "g")))
       (Regex.Alt (Regex.word "gif")
       (Regex.Alt (Regex.word "bmp")
       (Regex.Alt (Regex.word "webp")
                  (Regex.Seq (Regex.word "tif") (Regex.Opt (Regex.Lit "f"))))))))
       Regex.End).

(** Lines 180-183. *)
Definition isImage (file : MulterFile) : bool :=
  let mimetype := Js.toLowerCase (Js.or_else (file_mimetype file) "") in
  let originalname := Js.or_else (file_originalname file) "" in
  Js.startsWith mimetype "image" || Regex.test true image_extension_regex originalname.

(** Line 184. *)
Definition uploadMistralOCR_documentType (file : MulterFile) : string :=
  if isImage file then "image_url" else "document_url".

(** Lines 204-208, the callback over the images of one page. *)
Definition image_callback (images : list string) (image : OcrImage) (_ : nat) : list string :=
  match image_base64 image with
  | Some payload => if Js.truthy payload then images ++ [payload] else images
  | None => images
  end.

(** Lines 196-210, the callback over the pages; [pages_length] is
    [ocrResult.pages.length], the state is [(aggregatedText, images)]. *)
Definition page_callback (pages_length : nat)
    (state : string * list string) (page : OcrPage) (index : nat) : string * list string :=
  let '(aggregatedText, images) := state in
  let aggregatedText :=
    if 1 <? pages_length
    then aggregatedText +:+ ("# PAGE " +:+ pretty (index + 1) +:+ Js.LF)
    else aggregatedText in
  let aggregatedText := aggregatedText +:+ (page_markdown page +:+ (Js.LF +:+ Js.LF)) in
  let images :=
    match page_images page with
    | Some page_images =>
        if 0 <? length page_images
        then forEach image_callback page_images images
        else images
    | None => images
    end in
  (aggregatedText, images).

(** Lines 194-218: the aggregated output. *)
Definition uploadMistralOCR_aggregate
    (file : MulterFile) (pages : list OcrPage) : IngestionResult :=
  let '(aggregatedText, images) :=
    forEach (page_callback (length pages)) pages ("", []) in
  {| filename := file_originalname file;
     bytes := String.length aggregatedText * 4;
     filepath := FileSources_mistral_ocr;
     text := aggregatedText;
     images := images |}.

(** Lines 162-218: the three requests and the aggregation, with the
    credentials in effect. *)
Definition uploadMistralOCR_stages
    (ocrConfig : OcrConfig) (file : MulterFile)
    (apiKey baseURL : option string) : M IngestionResult :=
  mistralFile ← uploadDocumentToMistral (file_path file) (file_originalname file) apiKey baseURL;
  let model := uploadMistralOCR_model ocrConfig in
  signedUrlResponse ← getSignedUrl apiKey (data_id mistralFile) None baseURL;
  let documentType := uploadMistralOCR_documentType file in
  ocrResult ← performOCR apiKey (data_url signedUrlResponse)
                         (Some documentType) (Some model) baseURL;
  pages ← match data_pages ocrResult with
          | Some pages => mret pages
          | None => throw (TypeError "Cannot read properties of undefined (reading 'forEach')")
          end;
  mret (uploadMistralOCR_aggregate file pages).

(** Lines 131-218, the body of the [try]. *)
Definition uploadMistralOCR_try (req : ServerRequest) (file : MulterFile) : M IngestionResult :=
  ocrConfig ← match req_app_locals_ocr req with
              | Some ocrConfig => mret ocrConfig
              | None => throw (TypeError "Cannot read properties of undefined (reading 'apiKey')")
              end;
  '(apiKey, baseURL) ← uploadMistralOCR_credentials req ocrConfig;
  uploadMistralOCR_stages ocrConfig file apiKey baseURL.

Definition ingestion_error_message : string :=
  "Error uploading document to Mistral OCR API".

(** The catch of lines 219-222. *)
Definition uploadMistralOCR_catch (error : JsError) : M IngestionResult :=
  let message := ingestion_error_message in
  emit (EvLogAxiosError error message);;
  throw (NewError (logAxiosError error message)).

(** Lines 129-223. *)
Definition uploadMistralOCR (req : ServerRequest) (file : MulterFile) : M IngestionResult :=
  try_catch (uploadMistralOCR_try req file) uploadMistralOCR_catch.

(** The four stages answer, from log [t] to log [t'], and the OCR answer
    carries [pages]: the runs of lines 131-192 that reach the
    aggregation. *)
Inductive Ingests (req : ServerRequest) (file : MulterFile)
    (t : Log) (pages : list OcrPage) (t' : Log) : Prop :=
| Ingests_intro ocrConfig apiKey baseURL t1 mistralFile t2 signedUrlResponse t3 ocrResult :
    req_app_locals_ocr req = Some ocrConfig →
    uploadMistralOCR_credentials req ocrConfig t = (inr (apiKey, baseURL), t1) →
    uploadDocumentToMistral (file_path file) (file_originalname file) apiKey baseURL t1
      = (inr mistralFile, t2) →
    getSignedUrl apiKey (data_id mistralFile) None baseURL t2
      = (inr signedUrlResponse, t3) →
    performOCR apiKey (data_url signedUrlResponse)
        (Some (uploadMistralOCR_documentType file))
        (Some (uploadMistralOCR_model ocrConfig)) baseURL t3
      = (inr ocrResult, t') →
    data_pages ocrResult = Some pages →
    Ingests req file t pages t'.

End MistralOCR.

(** ** Notions the properties are stated with *)

(** The functions of the module entered, the secret-store lookups and the
    GET requests recorded in a log, in order. *)
Definition calls (l : Log) : list Callee :=
  omap (λ ev, match ev with EvCall f => Some f | _ => None end) l.

Definition lookups (l : Log) : list (string * list string * gset string) :=
  omap (λ ev, match ev with
              | EvLoadAuthValues userId authFields optional =>
                  Some (userId, authFields, optional)
              | _ => None
              end) l.

Definition gets (l : Log) : list string :=
  omap (λ ev, match ev with EvAxiosGet url _ => Some url | _ => None end) l.

Definition posts (l : Log) : list (string * RequestBody) :=
  omap (λ ev, match ev with EvAxiosPost url body _ => Some (url, body) | _ => None end) l.

Definition is_lookup (ev : Event) : bool :=
match ev with
| EvLoadAuthValues _ _ _ => true
| _ => false
end.

(** A computation all of whose new log entries satisfy [P], whatever its
    outcome. *)
Definition emits {A : Type} (P : Event → Prop) (m : M A) : Prop :=
∀ t r t', m t = (r, t') → ∃ d, t' = t ++ d ∧ Forall P d.

(** A name the secret store must resolve: one not in the optional set. *)
Definition required (optional : gset string) (name : string) : Prop :=
  name ∉ optional.

(** The configured strings of lines 134-135 and the names of lines
    146-147. *)
Definition config_apiKey (ocrConfig : OcrConfig) : string :=
  Js.or_else (ocr_apiKey ocrConfig) "".

Definition config_baseURL (ocrConfig : OcrConfig) : string :=
  Js.or_else (ocr_baseURL ocrConfig) "".

Definition apiKeyVarName `{W : World} (ocrConfig : OcrConfig) : string :=
  if envVarRegex_test (config_apiKey ocrConfig)
  then extractVariableName (config_apiKey ocrConfig) else "OCR_API_KEY".

Definition baseURLVarName `{W : World} (ocrConfig : OcrConfig) : string :=
  if envVarRegex_test (config_baseURL ocrConfig)
  then extractVariableName (config_baseURL ocrConfig) else "OCR_BASEURL".

(** The concatenation of a list of strings. *)
Definition join (l : list string) : string := foldr String.append "" l.

(** The heading of page [n] and the separator after a page. *)
Definition page_heading (n : nat) : string := "# PAGE " +:+ pretty n +:+ Js.LF.

Definition blank_line : string := Js.LF +:+ Js.LF.

Definition page_block (numbered : bool) (n : nat) (page : OcrPage) : string :=
  (if numbered then page_heading n else "") +:+ page_markdown page +:+ blank_line.

(** The base64 payload of an image entry, if it has one. *)
Definition image_payload (image : OcrImage) : option string :=
  match image_base64 image with
  | Some payload => if String.eqb payload "" then None else Some payload
  | None => None
  end.

Definition page_payloads (page : OcrPage) : list string :=
  omap image_payload (default [] (page_images page)).

(** The extension of a file name: what follows its last dot. *)
Fixpoint extension (name : string) : option string :=
  match name with
  | EmptyString => None
  | String c rest =>
      match extension rest with
      | Some e => Some e
      | None => if Ascii.eqb c "." then Some rest else None
      end
  end.

Definition image_extensions : list string :=
  ["png"; "jpg"; "jpeg"; "gif"; "bmp"; "webp"; "tiff"; "tif"].

Definition has_image_extension (name : string) : bool :=
  match extension name with
  | Some e => existsb (String.eqb (Js.toLowerCase e)) image_extensions
  | None => false
  end.

(** The reports to [logAxiosError] and the [logger.error] lines of a log,
    in order. *)
Definition reports (l : Log) : list (JsError * string) :=
  omap (λ ev, match ev with EvLogAxiosError e m => Some (e, m) | _ => None end) l.

Definition logged (l : Log) : list (string * string) :=
  omap (λ ev, match ev with EvLoggerError a b => Some (a, b) | _ => None end) l.

(** The HTTP requests of a log, in order. *)
Inductive Request : Type :=
| ReqPost (url : string) (body : RequestBody) (config : RequestConfig)
| ReqGet (url : string) (config : RequestConfig).

Definition requests (l : Log) : list Request :=
  omap (λ ev, match ev with
              | EvAxiosPost url body config => Some (ReqPost url body config)
              | EvAxiosGet url config => Some (ReqGet url config)
              | _ => None
              end) l.

(** The events of the three request functions: entries, requests and
    logger lines. *)
Definition is_stage_event (ev : Event) : bool :=
  match ev with
  | EvCall _ | EvAxiosPost _ _ _ | EvAxiosGet _ _ | EvLoggerError _ _ => true
  | EvLoadAuthValues _ _ _ | EvLogAxiosError _ _ => false
  end.

(** The file name of the multipart field, line 35. *)
Definition actualFileName `{W : World} (filePath : string) (fileName : option string) : string :=
  match fileName with
  | Some name => if String.eqb name "" then path_basename filePath else name
  | None => path_basename filePath
  end.

(** The four stages answer, from log [t] to log [t'], the OCR answer being
    [ocrResult]: the runs of lines 131-192 that reach line 194. *)
Inductive Answered `{W : World} (req : ServerRequest) (file : MulterFile)
    (t : Log) (ocrResult : ResponseData) (t' : Log) : Prop :=
| Answered_intro ocrConfig apiKey baseURL t1 mistralFile t2 signedUrlResponse t3 :
    req_app_locals_ocr req = Some ocrConfig →
    uploadMistralOCR_credentials req ocrConfig t = (inr (apiKey, baseURL), t1) →
    uploadDocumentToMistral (file_path file) (file_originalname file) apiKey baseURL t1
      = (inr mistralFile, t2) →
    getSignedUrl apiKey (data_id mistralFile) None baseURL t2
      = (inr signedUrlResponse, t3) →
    performOCR apiKey (data_url signedUrlResponse)
        (Some (uploadMistralOCR_documentType file))
        (Some (uploadMistralOCR_model ocrConfig)) baseURL t3
      = (inr ocrResult, t') →
    Answered req file t ocrResult t'.

(** The number of image entries of a page. *)
Definition page_image_count (page : OcrPage) : nat :=
  length (default [] (page_images page)).

(** What one request function adds to the log, whatever its outcome. *)
Definition stage_delta (f : Callee) (d : Log) : Prop :=
  calls d = [f] ∧ length (requests d) = 1 ∧ lookups d = [] ∧ reports d = [].

(** The number of positions of [s] at which [pattern] occurs. *)
Fixpoint occurrences (pattern s : string) : nat :=
  (if String.prefix pattern s then 1 else 0)
  + match s with
    | EmptyString => 0
    | String _ s' => occurrences pattern s'
    end.

(** [c] is a code unit of [s]. *)
Fixpoint has_unit (c : ascii) (s : string) : bool :=
  match s with
  | EmptyString => false
  | String c' s' => Ascii.eqb c c' || has_unit c s'
  end.

(** The decimal digits, and the strings made of them. *)
Definition is_digit (c : ascii) : bool :=
  (48 <=? N_of_ascii c)%N && (N_of_ascii c <=? 57)%N.

Fixpoint digits (s : string) : bool :=
  match s with
  | EmptyString => true
  | String c s' => is_digit c && digits s'
  end.

(** A dot followed by a listed extension, up to case: what the literal of
    line 183 accepts at one position. *)
Definition dot_ext (s : string) : bool :=
  match s with
  | String c e => Ascii.eqb c "." && existsb (String.eqb (Js.toLowerCase e)) image_extensions
  | EmptyString => false
  end.

(** The letters of the literal of line 183. *)
Definition pattern_letters : list ascii :=
  ["p"; "n"; "g"; "j"; "e"; "i"; "f"; "b"; "m"; "w"; "t"]%char.

Definition has_dot (s : string) : bool :=
  existsb (λ c, Ascii.eqb c ".") (list_ascii_of_string s).

(** ** A world for the examples

    Placeholders are the strings [${NAME}]; the secret store holds one map
    for every user and rejects when a name that is not optional is absent;
    the three endpoints answer with fixed values. *)

Module Sample.

Definition placeholder_name (s : string) : option string :=
  let n := String.length s in
  if String.prefix "${" s && (3 <? n) && String.eqb (String.substring (n - 1) 1 s) "}"
  then Some (String.substring 2 (n - 3) s)
  else None.

Definition lookup_all (store : gmap string string)
    (authFields : list string) (optional : gset string) : JsError + gmap string string :=
  foldl (λ acc field,
           match acc with
           | inl e => inl e
           | inr authValues =>
               match store !! field with
               | Some v => inr (<[field := v]> authValues)
               | None =>
                   if bool_decide (field ∈ optional) then inr authValues
                   else inl (Rejected ("No auth value for " +:+ field))
               end
           end)
        (inr ∅) authFields.

Definition world (store : gmap string string)
    (upload_answer url_answer ocr_answer : JsError + ResponseData) : World :=
  {| envVarRegex_test s := bool_decide (is_Some (placeholder_name s));
     extractVariableName s := default "" (placeholder_name s);
     extractEnvVariable s := default s (store !! default "" (placeholder_name s));
     FileSources_mistral_ocr := "mistral_ocr";
     loadAuthValues _ authFields optional := lookup_all store authFields optional;
     axios_post _ body _ :=
       match body with
       | BodyForm _ => upload_answer
       | BodyJson _ => ocr_answer
       end;
     axios_get _ _ := url_answer;
     logAxiosError error message := message +:+ ": " +:+ error_message error;
     path_basename p := p;
     form_getHeaders _ := [("content-type", "multipart/form-data")] |}.

Definition file_answer : ResponseData :=
  {| data_id := Some "file-1"; data_url := None; data_pages := None |}.

Definition url_answer : ResponseData :=
  {| data_id := None; data_url := Some "https://files.example/signed"; data_pages := None |}.

Definition ocr_answer (pages : list OcrPage) : ResponseData :=
  {| data_id := None; data_url := None; data_pages := Some pages |}.

Definition hello_page : OcrPage :=
  {| page_markdown := "Hello"; page_images := Some [] |}.

Definition literal_config : OcrConfig :=
  {| ocr_apiKey := Some "sk-literal";
     ocr_baseURL := Some "https://ocr.example/v1";
     ocr_mistralModel := None |}.

Definition request (ocrConfig : OcrConfig) : ServerRequest :=
  {| req_user_id := "user-1"; req_app_locals_ocr := Some ocrConfig |}.

Definition a_pdf : MulterFile :=
  {| file_path := "/tmp/upload-1";
     file_originalname := Some "a.pdf";
     file_mimetype := Some "application/pdf" |}.

(** A blank API key next to a literal base URL. *)
Definition blank_key_config : OcrConfig :=
  {| ocr_apiKey := Some " ";
     ocr_baseURL := Some "https://ocr.example/v1";
     ocr_mistralModel := None |}.

(** The same placeholder in both fields. *)
Definition same_placeholder_config : OcrConfig :=
  {| ocr_apiKey := Some "${MISTRAL}";
     ocr_baseURL := Some "${MISTRAL}";
     ocr_mistralModel := None |}.

(** A placeholder API key and no base URL. *)
Definition placeholder_key_config : OcrConfig :=
  {| ocr_apiKey := Some "${MISTRAL_KEY}";
     ocr_baseURL := None;
     ocr_mistralModel := None |}.

(** Every endpoint answers; the OCR answer carries [pages]. *)
Definition answering (pages : list OcrPage) : World :=
  world ∅ (inr file_answer) (inr url_answer) (inr (ocr_answer pages)).

(** The signed URL request is rejected. *)
Definition url_rejected : World :=
  world ∅ (inr file_answer) (inl (Rejected "Request failed with status code 404"))
    (inr (ocr_answer [])).

(** The OCR request is rejected. *)
Definition ocr_rejected : World :=
  world ∅ (inr file_answer) (inr url_answer)
    (inl (Rejected "Request failed with status code 422")).

(** The OCR endpoint answers without [pages]. *)
Definition ocr_without_pages : World :=
  world ∅ (inr file_answer) (inr url_answer) (inr url_answer).

(** The secret store holds an API key and no base URL. *)
Definition key_store : gmap string string := {[ "OCR_API_KEY" := "sk-stored" ]}.

Definition stored (pages : list OcrPage) : World :=
  world key_store (inr file_answer) (inr url_answer) (inr (ocr_answer pages)).

(** A literal API key and no base URL. *)
Definition key_only_config : OcrConfig :=
  {| ocr_apiKey := Some "sk-literal";
     ocr_baseURL := None;
     ocr_mistralModel := Some "  mistral-ocr-2503 " |}.

(** A request without OCR configuration. *)
Definition bare_request : ServerRequest :=
  {| req_user_id := "user-1"; req_app_locals_ocr := None |}.

(** The upload is rejected. *)
Definition upload_rejected : World :=
  world ∅ (inl (Rejected "socket hang up")) (inr url_answer) (inr (ocr_answer [])).

Definition hello_output : IngestionResult :=
  {| filename := Some "a.pdf";
     bytes := 28;
     filepath := "mistral_ocr";
     text := "Hello" +:+ Js.LF +:+ Js.LF;
     images := [] |}.

(** The log of a run in [answering pages], from the empty log. *)
Definition answered_log : Log :=
  Eval vm_compute in
    (@uploadMistralOCR (answering []) (request literal_config) a_pdf []).2.

Definition image (payload : option string) : OcrImage :=
  {| image_base64 := payload |}.

(** Three pages: two image entries out of five carry no payload, one
    page has no [images] field. *)
Definition three_pages : list OcrPage :=
  [ {| page_markdown := "one";
       page_images := Some [image (Some "AAAA"); image None; image (Some "BBBB")] |};
    {| page_markdown := "two"; page_images := None |};
    {| page_markdown := "three";
       page_images := Some [image (Some ""); image (Some "CCCC")] |} ].

End Sample.


(** ** Properties *)

Section Runs.

Context {A B : Type}.

Lemma run_bind_ok (m : M A) (k : A → M B) t a t1 :
  m t = (inr a, t1) → (m ≫= k) t = k a t1.
Proof. intros H. unfold mbind, M_bind, bind. by rewrite H. Qed.

Lemma run_bind_throw (m : M A) (k : A → M B) t e t1 :
  m t = (inl e, t1) → (m ≫= k) t = (inl e, t1).
Proof. intros H. unfold mbind, M_bind, bind. by rewrite H. Qed.

Lemma run_bind_inv_ok (m : M A) (k : A → M B) t b t' :
  (m ≫= k) t = (inr b, t') →
  ∃ a t1, m t = (inr a, t1) ∧ k a t1 = (inr b, t').
Proof.
  unfold mbind, M_bind, bind. destruct (m t) as [[e|a] t1]; [done|]. eauto.
Qed.

Lemma run_try_ok (m : M A) (h : JsError → M A) t a t1 :
  m t = (inr a, t1) → try_catch m h t = (inr a, t1).
Proof. intros H. unfold try_catch. by rewrite H. Qed.

Lemma run_try_throw (m : M A) (h : JsError → M A) t e t1 :
  m t = (inl e, t1) → try_catch m h t = h e t1.
Proof. intros H. unfold try_catch. by rewrite H. Qed.

End Runs.

Section Ingestion.

Context `{W : World}.

Lemma uploadMistralOCR_catch_throws error t :
  uploadMistralOCR_catch error t
  = (inl (NewError (logAxiosError error ingestion_error_message)),
     t ++ [EvLogAxiosError error ingestion_error_message]).
Proof. reflexivity. Qed.

(** A run that returns is a run of the [try] body. *)
Lemma uploadMistralOCR_ok_try req file t out t' :
  uploadMistralOCR req file t = (inr out, t') ↔
  uploadMistralOCR_try req file t = (inr out, t').
Proof.
  unfold uploadMistralOCR, try_catch.
  destruct (uploadMistralOCR_try req file t) as [[e|a] t1]; [|done].
  by rewrite uploadMistralOCR_catch_throws.
Qed.

Lemma Ingests_try req file t pages t' :
  Ingests req file t pages t' →
  uploadMistralOCR_try req file t = (inr (uploadMistralOCR_aggregate file pages), t').
Proof.
  intros [cfg apiKey baseURL t1 mf t2 su t3 ocr Hcfg Hcred Hup Hurl Hocr Hpages].
  unfold uploadMistralOCR_try. rewrite Hcfg.
  erewrite run_bind_ok by reflexivity.
  erewrite run_bind_ok by exact Hcred.
  unfold uploadMistralOCR_stages.
  erewrite run_bind_ok by exact Hup.
  erewrite run_bind_ok by exact Hurl.
  erewrite run_bind_ok by exact Hocr.
  by rewrite Hpages.
Qed.

(** When the stages answer, the ingestion returns the aggregated output. *)
Lemma Ingests_sound req file t pages t' :
  Ingests req file t pages t' →
  uploadMistralOCR req file t = (inr (uploadMistralOCR_aggregate file pages), t').
Proof. intros H. apply uploadMistralOCR_ok_try. by apply Ingests_try. Qed.

(** Every run that returns went through the four stages. *)
Lemma Ingests_complete req file t out t' :
  uploadMistralOCR req file t = (inr out, t') →
  ∃ pages, Ingests req file t pages t' ∧ out = uploadMistralOCR_aggregate file pages.
Proof.
  intros H%uploadMistralOCR_ok_try. unfold uploadMistralOCR_try in H.
  destruct (req_app_locals_ocr req) as [cfg|] eqn:Hcfg.
  2:{ by apply run_bind_inv_ok in H as (? & ? & [=] & _). }
  apply run_bind_inv_ok in H as (cfg' & t0 & [= <- <-] & H).
  apply run_bind_inv_ok in H as ([apiKey baseURL] & t1 & Hcred & H).
  unfold uploadMistralOCR_stages in H.
  apply run_bind_inv_ok in H as (mf & t2 & Hup & H).
  apply run_bind_inv_ok in H as (su & t3 & Hurl & H).
  apply run_bind_inv_ok in H as (ocr & t4 & Hocr & H).
  destruct (data_pages ocr) as [pages|] eqn:Hpages.
  2:{ by apply run_bind_inv_ok in H as (? & ? & [=] & _). }
  apply run_bind_inv_ok in H as (pages' & t5 & [= <- <-] & [= <- <-]).
  exists pages. split; [|done]. by econstructor.
Qed.

End Ingestion.

(** *** Strings *)

Section Strings.

Lemma string_app_cons c (s1 s2 : string) : String c s1 +:+ s2 = String c (s1 +:+ s2).
Proof. reflexivity. Qed.

Lemma string_app_empty_l (s : string) : "" +:+ s = s.
Proof. reflexivity. Qed.

Lemma string_app_empty_r (s : string) : s +:+ "" = s.
Proof. induction s as [|c s IH]; [done|]. by rewrite string_app_cons, IH. Qed.

Lemma string_app_assoc (s1 s2 s3 : string) : (s1 +:+ s2) +:+ s3 = s1 +:+ (s2 +:+ s3).
Proof. induction s1 as [|c s1 IH]; [done|]. by rewrite !string_app_cons, IH. Qed.

Lemma string_length_app (s1 s2 : string) :
  String.length (s1 +:+ s2) = String.length s1 + String.length s2.
Proof. induction s1 as [|c s1 IH]; [done|]. rewrite string_app_cons. simpl. by rewrite IH. Qed.

Lemma join_cons (s : string) (l : list string) : join (s :: l) = s +:+ join l.
Proof. reflexivity. Qed.

End Strings.

(** *** The aggregation loop *)

Section Aggregation.

Context `{W : World}.

Lemma image_callback_payload images image index :
  image_callback images image index = images ++ option_list (image_payload image).
Proof.
  unfold image_callback, image_payload, Js.truthy.
  destruct (image_base64 image) as [payload|]; simpl; [|by rewrite app_nil_r].
  destruct (String.eqb payload ""); simpl; [by rewrite app_nil_r|done].
Qed.

Lemma forEach_from_image_callback index page_images images :
  forEach_from image_callback index page_images images
  = images ++ omap image_payload page_images.
Proof.
  revert index images.
  induction page_images as [|image rest IH]; intros index images; simpl.
  - by rewrite app_nil_r.
  - rewrite IH, image_callback_payload.
    destruct (image_payload image); simpl; by rewrite <- ?List.app_assoc, ?app_nil_r.
Qed.

Lemma page_callback_block pages_length aggregatedText images page index :
  page_callback pages_length (aggregatedText, images) page index
  = (aggregatedText +:+ page_block (1 <? pages_length) (index + 1) page,
     images ++ page_payloads page).
Proof.
  unfold page_callback, page_block, page_payloads, page_heading, blank_line.
  f_equal.
  - destruct (1 <? pages_length); [|done]. by rewrite !string_app_assoc.
  - destruct (page_images page) as [l|]; simpl; [|by rewrite app_nil_r].
    destruct l as [|image rest]; [by rewrite app_nil_r|].
    change (0 <? length (image :: rest)) with true. cbv iota.
    unfold forEach. apply forEach_from_image_callback.
Qed.

Lemma forEach_from_page_callback pages_length index pages aggregatedText images :
  forEach_from (page_callback pages_length) index pages (aggregatedText, images)
  = (aggregatedText
       +:+ join (imap (λ i, page_block (1 <? pages_length) (index + i + 1)) pages),
     images ++ concat (page_payloads <$> pages)).
Proof.
  revert index aggregatedText images.
  induction pages as [|page rest IH]; intros index aggregatedText images.
  - simpl. unfold join. simpl. by rewrite string_app_empty_r, app_nil_r.
  - change (forEach_from ?f index (page :: rest) ?s)
      with (forEach_from f (index + 1) rest (f s page index)).
    rewrite page_callback_block, IH, imap_cons, fmap_cons, join_cons.
    rewrite !string_app_assoc, Nat.add_0_r. simpl. rewrite List.app_assoc.
    do 3 f_equal. f_equal.
    apply imap_ext. intros i page' _. simpl. f_equal. lia.
Qed.

(** The aggregated output, page by page. *)
Lemma uploadMistralOCR_aggregate_blocks file pages :
  uploadMistralOCR_aggregate file pages
  = let aggregatedText :=
      join (imap (λ i, page_block (1 <? length pages) (i + 1)) pages) in
    {| filename := file_originalname file;
       bytes := String.length aggregatedText * 4;
       filepath := FileSources_mistral_ocr;
       text := aggregatedText;
       images := concat (page_payloads <$> pages) |}.
Proof.
  unfold uploadMistralOCR_aggregate, forEach.
  by rewrite forEach_from_page_callback.
Qed.

End Aggregation.

(** *** The aggregated output *)

Section Output.

Context `{W : World}.

(** C10. When the OCR answer has no page, the ingestion still returns:
    the text is empty, there is no image, [bytes] is 0, [filename] is the
    original name of the file and [filepath] is the [mistral_ocr] source
    tag. *)
Theorem empty_pages_output req file t t' :
  Ingests req file t [] t' →
  uploadMistralOCR req file t
  = (inr {| filename := file_originalname file;
            bytes := 0;
            filepath := FileSources_mistral_ocr;
            text := "";
            images := [] |}, t').
Proof. intros H. by rewrite (Ingests_sound _ _ _ _ _ H). Qed.

(** C2. Every ingestion that returns went through the four stages, and
    its [bytes] is 4 times the length of its [text] (0 for the empty
    text); for the one-page answer [{markdown: "Hello", images: []}] and
    the file name [a.pdf] the output is
    [{text: "Hello\n\n", images: [], filename: "a.pdf", bytes: 28}]. *)
Theorem bytes_four_times_length req file t out t' :
  uploadMistralOCR req file t = (inr out, t') →
  ∃ pages,
    Ingests req file t pages t' ∧
    bytes out = 4 * String.length (text out) ∧
    (text out = "" → bytes out = 0) ∧
    (file_originalname file = Some "a.pdf" →
     pages = [{| page_markdown := "Hello"; page_images := Some [] |}] →
     out = {| filename := Some "a.pdf";
              bytes := 28;
              filepath := FileSources_mistral_ocr;
              text := "Hello" +:+ Js.LF +:+ Js.LF;
              images := [] |}).
Proof.
  intros (pages & Hstages & ->)%Ingests_complete.
  exists pages. split; [done|].
  rewrite uploadMistralOCR_aggregate_blocks. simpl.
  split; [lia|]. split; [by intros ->|].
  by intros -> ->.
Qed.

(** C3. With N > 1 pages the text is N blocks in page order, block n
    (counted from 1) being the heading [# PAGE n], the markdown of page n
    and a blank line; with one page the text is its markdown and a blank
    line, without heading. *)
Theorem page_headings req file t pages t' :
  Ingests req file t pages t' →
  ∃ out,
    uploadMistralOCR req file t = (inr out, t') ∧
    (1 < length pages →
     ∃ blocks,
       text out = join blocks ∧
       length blocks = length pages ∧
       ∀ i page, pages !! i = Some page →
         blocks !! i
         = Some (page_heading (i + 1) +:+ page_markdown page +:+ blank_line)) ∧
    (∀ page, pages = [page] → text out = page_markdown page +:+ blank_line).
Proof.
  intros H. eexists. split; [by apply Ingests_sound|].
  rewrite uploadMistralOCR_aggregate_blocks. simpl. split.
  - intros HN. apply Nat.ltb_lt in HN. rewrite HN.
    eexists. split; [done|]. split; [by rewrite length_imap|].
    intros i page Hi. by rewrite list_lookup_imap, Hi.
  - intros page ->. simpl. unfold join, page_block. simpl.
    by rewrite string_app_empty_r.
Qed.

(** C7. The images of the output are the base64 payloads of the image
    entries, page after page and in the order of each page; an entry
    without payload contributes nothing and does not make the ingestion
    fail. *)
Theorem images_in_order req file t pages t' :
  Ingests req file t pages t' →
  ∃ out,
    uploadMistralOCR req file t = (inr out, t') ∧
    images out = concat (page_payloads <$> pages).
Proof.
  intros H. eexists. split; [by apply Ingests_sound|].
  by rewrite uploadMistralOCR_aggregate_blocks.
Qed.

End Output.

Lemma Sample_answering_ingests pages :
  @Ingests (Sample.answering pages) (Sample.request Sample.literal_config)
    Sample.a_pdf [] pages Sample.answered_log.
Proof. econstructor; [reflexivity | vm_compute; reflexivity ..]. Qed.

Lemma empty_pages_output_witness :
  @uploadMistralOCR (Sample.answering []) (Sample.request Sample.literal_config)
    Sample.a_pdf []
  = (inr {| filename := Some "a.pdf"; bytes := 0; filepath := "mistral_ocr";
            text := ""; images := [] |}, Sample.answered_log).
Proof.
  apply (@empty_pages_output (Sample.answering [])).
  apply Sample_answering_ingests.
Defined.

Lemma bytes_four_times_length_witness :
  ∃ pages,
    @Ingests (Sample.answering [Sample.hello_page])
      (Sample.request Sample.literal_config) Sample.a_pdf [] pages Sample.answered_log ∧
    bytes Sample.hello_output = 4 * String.length (text Sample.hello_output) ∧
    (text Sample.hello_output = "" → bytes Sample.hello_output = 0) ∧
    (file_originalname Sample.a_pdf = Some "a.pdf" →
     pages = [{| page_markdown := "Hello"; page_images := Some [] |}] →
     Sample.hello_output
     = {| filename := Some "a.pdf"; bytes := 28; filepath := "mistral_ocr";
          text := "Hello" +:+ Js.LF +:+ Js.LF; images := [] |}).
Proof.
  apply (@bytes_four_times_length (Sample.answering [Sample.hello_page])
           (Sample.request Sample.literal_config) Sample.a_pdf []
           Sample.hello_output Sample.answered_log).
  vm_compute. reflexivity.
Defined.

Lemma page_headings_witness :
  ∃ out,
    @uploadMistralOCR (Sample.answering Sample.three_pages)
      (Sample.request Sample.literal_config) Sample.a_pdf []
    = (inr out, Sample.answered_log) ∧
    (1 < length Sample.three_pages →
     ∃ blocks,
       text out = join blocks ∧
       length blocks = length Sample.three_pages ∧
       ∀ i page, Sample.three_pages !! i = Some page →
         blocks !! i
         = Some (page_heading (i + 1) +:+ page_markdown page +:+ blank_line)) ∧
    (∀ page, Sample.three_pages = [page] → text out = page_markdown page +:+ blank_line).
Proof.
  apply (@page_headings (Sample.answering Sample.three_pages)
           (Sample.request Sample.literal_config) Sample.a_pdf []
           Sample.three_pages Sample.answered_log).
  apply Sample_answering_ingests.
Defined.

Lemma images_in_order_witness :
  ∃ out,
    @uploadMistralOCR (Sample.answering Sample.three_pages)
      (Sample.request Sample.literal_config) Sample.a_pdf []
    = (inr out, Sample.answered_log) ∧
    images out = ["AAAA"; "BBBB"; "CCCC"].
Proof.
  apply (@images_in_order (Sample.answering Sample.three_pages)
           (Sample.request Sample.literal_config) Sample.a_pdf []
           Sample.three_pages Sample.answered_log).
  apply Sample_answering_ingests.
Defined.

(** *** What a computation adds to the log *)

Section Emits.

Context {A B : Type}.

Lemma emits_ret (P : Event → Prop) (a : A) : emits P (mret a).
Proof. intros t r t' [= <- <-]. exists []. by rewrite app_nil_r. Qed.

Lemma emits_throw (P : Event → Prop) (e : JsError) : emits P (@throw A e).
Proof. intros t r t' [= <- <-]. exists []. by rewrite app_nil_r. Qed.

Lemma emits_settle (P : Event → Prop) (x : JsError + A) : emits P (settle x).
Proof. intros t r t' [= <- <-]. exists []. by rewrite app_nil_r. Qed.

Lemma emits_bind (P : Event → Prop) (m : M A) (k : A → M B) :
  emits P m → (∀ a, emits P (k a)) → emits P (m ≫= k).
Proof.
  intros Hm Hk t r t'. unfold mbind, M_bind, bind.
  destruct (m t) as [[e|a] t1] eqn:Hrun; apply Hm in Hrun as (d1 & -> & Hd1).
  - intros [= <- <-]. eauto.
  - intros (d2 & -> & Hd2)%Hk. exists (d1 ++ d2).
    split; [by rewrite List.app_assoc|]. by apply Forall_app.
Qed.

Lemma emits_try (P : Event → Prop) (m : M A) (h : JsError → M A) :
  emits P m → (∀ e, emits P (h e)) → emits P (try_catch m h).
Proof.
  intros Hm Hh t r t'. unfold try_catch.
  destruct (m t) as [[e|a] t1] eqn:Hrun; apply Hm in Hrun as (d1 & -> & Hd1).
  - intros (d2 & -> & Hd2)%Hh. exists (d1 ++ d2).
    split; [by rewrite List.app_assoc|]. by apply Forall_app.
  - intros [= <- <-]. eauto.
Qed.

Lemma emits_weaken (P Q : Event → Prop) (m : M A) :
  (∀ ev, P ev → Q ev) → emits P m → emits Q m.
Proof.
  intros HPQ Hm t r t' (d & -> & Hd)%Hm. exists d. split; [done|].
  eapply Forall_impl; eauto.
Qed.

End Emits.

Lemma emits_emit (P : Event → Prop) (ev : Event) : P ev → emits P (emit ev).
Proof. intros HP t r t' [= <- <-]. exists [ev]. split; [done|]. by constructor. Qed.

Lemma lookups_app (d1 d2 : Log) : lookups (d1 ++ d2) = lookups d1 ++ lookups d2.
Proof. apply omap_app. Qed.

Lemma calls_app (d1 d2 : Log) : calls (d1 ++ d2) = calls d1 ++ calls d2.
Proof. apply omap_app. Qed.

Lemma gets_app (d1 d2 : Log) : gets (d1 ++ d2) = gets d1 ++ gets d2.
Proof. apply omap_app. Qed.

Lemma posts_app (d1 d2 : Log) : posts (d1 ++ d2) = posts d1 ++ posts d2.
Proof. apply omap_app. Qed.

Lemma no_lookup_lookups (d : Log) :
  Forall (λ ev, is_lookup ev = false) d → lookups d = [].
Proof.
  induction 1 as [|ev d Hev _ IH]; [done|].
  destruct ev; try done; simpl in *; apply IH.
Qed.

Lemma only_lookups (d : Log) :
  Forall (λ ev, is_lookup ev = true) d → calls d = [] ∧ gets d = [] ∧ posts d = [].
Proof.
  induction 1 as [|ev d Hev _ IH]; [done|].
  destruct ev; try done; simpl in *; apply IH.
Qed.

Section Stages.

Context `{W : World}.

Ltac emits_step :=
  first [ apply emits_bind; [|intros ?]
        | apply emits_try; [|intros ?]
        | apply emits_ret | apply emits_throw | apply emits_settle
        | by apply emits_emit ].

Lemma uploadMistralOCR_credentials_emits req ocrConfig :
  emits (λ ev, is_lookup ev = true) (uploadMistralOCR_credentials req ocrConfig).
Proof.
  unfold uploadMistralOCR_credentials.
  match goal with |- context [if ?b then _ else _] => destruct b end;
    repeat emits_step.
Qed.

Lemma uploadDocumentToMistral_emits filePath fileName apiKey baseURL :
  emits (λ ev, is_lookup ev = false)
    (uploadDocumentToMistral filePath fileName apiKey baseURL).
Proof. unfold uploadDocumentToMistral. repeat emits_step. Qed.

Lemma getSignedUrl_emits apiKey fileId expiry baseURL :
  emits (λ ev, is_lookup ev = false) (getSignedUrl apiKey fileId expiry baseURL).
Proof. unfold getSignedUrl. repeat emits_step. Qed.

Lemma performOCR_emits apiKey url documentType model baseURL :
  emits (λ ev, is_lookup ev = false) (performOCR apiKey url documentType model baseURL).
Proof. unfold performOCR. repeat emits_step. Qed.

Lemma uploadMistralOCR_stages_emits ocrConfig file apiKey baseURL :
  emits (λ ev, is_lookup ev = false) (uploadMistralOCR_stages ocrConfig file apiKey baseURL).
Proof.
  unfold uploadMistralOCR_stages.
  apply emits_bind; [apply uploadDocumentToMistral_emits|intros mistralFile].
  apply emits_bind; [apply getSignedUrl_emits|intros signedUrlResponse].
  apply emits_bind; [apply performOCR_emits|intros ocrResult].
  apply emits_bind; [|intros pages; apply emits_ret].
  destruct (data_pages ocrResult); [apply emits_ret|apply emits_throw].
Qed.

Lemma uploadMistralOCR_catch_emits error :
  emits (λ ev, is_lookup ev = false) (uploadMistralOCR_catch error).
Proof. unfold uploadMistralOCR_catch. repeat emits_step. Qed.

End Stages.

(** *** The failure path and the OCR request *)

Section Failure.

Context `{W : World}.

Lemma uploadDocumentToMistral_throws filePath fileName apiKey baseURL t cause t' :
  uploadDocumentToMistral filePath fileName apiKey baseURL t = (inl cause, t') →
  ∃ url body config,
    axios_post url body config = inl cause ∧
    t' = t ++ [EvCall FnUploadDocumentToMistral;
               EvAxiosPost url body config;
               EvLoggerError "Error uploading document to Mistral:" (error_message cause)].
Proof.
  unfold uploadDocumentToMistral, mbind, M_bind, bind, try_catch, emit, settle, throw.
  simpl.
  match goal with |- context [axios_post ?u ?b ?c] =>
    destruct (axios_post u b c) as [e|data] eqn:Hpost; [|done];
    intros [= <- <-]; exists u, b, c
  end.
  split; [done|]. by rewrite <- !List.app_assoc.
Qed.

(** C1. When the upload stage throws, the ingestion throws one error, a
    new [Error] built from that cause by the catch of lines 219-222; of the
    three request functions only [uploadDocumentToMistral] was entered and
    no GET request was sent: [getSignedUrl] and [performOCR] did not run. *)
Theorem upload_failure_stops_ingestion
    req file ocrConfig apiKey baseURL t t1 cause t2 :
  req_app_locals_ocr req = Some ocrConfig →
  uploadMistralOCR_credentials req ocrConfig t = (inr (apiKey, baseURL), t1) →
  uploadDocumentToMistral (file_path file) (file_originalname file) apiKey baseURL t1
    = (inl cause, t2) →
  ∃ d,
    uploadMistralOCR req file t
    = (inl (NewError (logAxiosError cause ingestion_error_message)), t ++ d) ∧
    calls d = [FnUploadDocumentToMistral] ∧
    (FnGetSignedUrl ∉ calls d) ∧
    (FnPerformOCR ∉ calls d) ∧
    gets d = [] ∧
    length (posts d) = 1.
Proof.
  intros Hcfg Hcred Hup.
  assert (uploadMistralOCR_try req file t = (inl cause, t2)) as Htry.
  { unfold uploadMistralOCR_try. rewrite Hcfg.
    erewrite run_bind_ok by reflexivity.
    erewrite run_bind_ok by exact Hcred.
    unfold uploadMistralOCR_stages.
    by erewrite run_bind_throw by exact Hup. }
  destruct (uploadMistralOCR_credentials_emits _ _ _ _ _ Hcred) as (d1 & -> & Hd1).
  destruct (uploadDocumentToMistral_throws _ _ _ _ _ _ _ Hup) as (url & body & config & _ & ->).
  apply only_lookups in Hd1 as (Hcalls & Hgets & Hposts).
  eexists. split.
  - unfold uploadMistralOCR.
    rewrite (run_try_throw _ _ _ _ _ Htry), uploadMistralOCR_catch_throws.
    by rewrite <- !List.app_assoc.
  - rewrite !calls_app, !gets_app, !posts_app, Hcalls, Hgets, Hposts. simpl.
    repeat split; try done; by intros ?%list_elem_of_singleton.
Qed.

(** The body of the OCR request carries the url itself under its key:
    the string when there is one, [undefined] when there is none. *)
Lemma performOCR_body_url url documentType model :
  js_get (js_get (performOCR_body url documentType model) "document")
    (if String.eqb documentType "image_url" then "image_url" else "document_url")
  = match url with
    | Some s => JsString s
    | None => JsUndefined
    end.
Proof.
  unfold performOCR_body.
  destruct (String.eqb documentType "image_url"), url; reflexivity.
Qed.

(** C9. [performOCR] posts to [{baseURL}/ocr] the body
    [{model, include_image_base64: false, document: {type, [key]: url}}];
    [type] is the [documentType] passed, [document_url] when none is; the
    key is [image_url] exactly when [documentType] is [image_url], and
    [document_url] for every other value; the value under the key is the
    url, a string [s] being posted as the string [s]. *)
Theorem performOCR_posts_body apiKey url documentType model baseURL t :
  ∃ type documentKey config r d,
    performOCR apiKey url documentType model baseURL t
    = (r, t ++ [EvCall FnPerformOCR;
                EvAxiosPost (Js.default_param baseURL default_baseURL +:+ "/ocr")
                  (BodyJson
                     (JsObject
                        [("model", JsString (Js.default_param model "mistral-ocr-latest"));
                         ("include_image_base64", JsBool false);
                         ("document",
                          JsObject [("type", JsString type);
                                    (documentKey,
                                     match url with
                                     | Some s => JsString s
                                     | None => JsUndefined
                                     end)])]))
                  config] ++ d) ∧
    type = Js.default_param documentType "document_url" ∧
    (documentType = None → type = "document_url") ∧
    (documentKey = "image_url" ↔ documentType = Some "image_url") ∧
    (documentType ≠ Some "image_url" → documentKey = "document_url").
Proof.
  unfold performOCR, performOCR_body, mbind, M_bind, bind, try_catch, emit, settle, throw.
  simpl.
  set (type := Js.default_param documentType "document_url").
  match goal with |- context [axios_post ?u ?b ?c] =>
    exists type, (if String.eqb type "image_url" then "image_url" else "document_url"), c;
    destruct (axios_post u b c) as [e|data]
  end.
  all: eexists; eexists; split; [by rewrite <- !List.app_assoc|].
  all: split; [done|]; split; [by intros ->|].
  all: subst type; destruct documentType as [dt|]; simpl;
    [destruct (String.eqb_spec dt "image_url") as [->|Hne]|];
    repeat split; try done; try congruence.
Qed.

End Failure.

(** *** Credentials *)

Section Credentials.

Context `{W : World}.

Lemma or_else_empty (v : option string) : Js.or_else v "" = default "" v.
Proof.
  destruct v as [s|]; [|done]. unfold Js.or_else, Js.truthy. simpl.
  by destruct (String.eqb_spec s "") as [->|].
Qed.

Lemma trim_nonempty (s : string) : Js.trim s ≠ "" → s ≠ "".
Proof. by intros H ->. Qed.

Lemma not_truthy_empty (s : string) : negb (Js.truthy s) = true ↔ s = "".
Proof.
  unfold Js.truthy. rewrite negb_involutive. apply String.eqb_eq.
Qed.

(** The branch of lines 146-156. *)
Lemma uploadMistralOCR_credentials_lookup req ocrConfig t :
  envVarRegex_test (config_apiKey ocrConfig) = true
  ∨ envVarRegex_test (config_baseURL ocrConfig) = true
  ∨ Js.trim (config_apiKey ocrConfig) = ""
  ∨ Js.trim (config_baseURL ocrConfig) = "" →
  uploadMistralOCR_credentials req ocrConfig t
  = (match loadAuthValues (req_user_id req)
             [baseURLVarName ocrConfig; apiKeyVarName ocrConfig]
             {[baseURLVarName ocrConfig]} with
     | inl cause => inl cause
     | inr authValues =>
         inr (authValues !! apiKeyVarName ocrConfig, authValues !! baseURLVarName ocrConfig)
     end,
     t ++ [EvLoadAuthValues (req_user_id req)
             [baseURLVarName ocrConfig; apiKeyVarName ocrConfig]
             {[baseURLVarName ocrConfig]}]).
Proof.
  intros Hbranch.
  unfold uploadMistralOCR_credentials.
  fold (config_apiKey ocrConfig) (config_baseURL ocrConfig).
  fold (apiKeyVarName ocrConfig) (baseURLVarName ocrConfig).
  match goal with |- context [if ?b then _ else _] =>
    assert (b = true) as ->
  end.
  { rewrite !orb_true_iff, !not_truthy_empty. tauto. }
  unfold mbind, M_bind, bind, emit, settle. simpl.
  by destruct (loadAuthValues _ _ _).
Qed.

(** The branch of lines 158-159. *)
Lemma uploadMistralOCR_credentials_literal req ocrConfig t :
  envVarRegex_test (config_apiKey ocrConfig) = false →
  envVarRegex_test (config_baseURL ocrConfig) = false →
  Js.trim (config_apiKey ocrConfig) ≠ "" →
  Js.trim (config_baseURL ocrConfig) ≠ "" →
  uploadMistralOCR_credentials req ocrConfig t
  = (inr (Some (config_apiKey ocrConfig), Some (config_baseURL ocrConfig)), t).
Proof.
  intros Hk Hb Hkt Hbt.
  unfold uploadMistralOCR_credentials.
  fold (config_apiKey ocrConfig) (config_baseURL ocrConfig).
  rewrite Hk, Hb. simpl.
  apply String.eqb_neq in Hkt, Hbt. unfold Js.truthy. by rewrite Hkt, Hbt.
Qed.

Lemma uploadMistralOCR_from_credentials req file ocrConfig apiKey baseURL t t1 :
  req_app_locals_ocr req = Some ocrConfig →
  uploadMistralOCR_credentials req ocrConfig t = (inr (apiKey, baseURL), t1) →
  uploadMistralOCR req file t
  = try_catch (uploadMistralOCR_stages ocrConfig file apiKey baseURL)
      uploadMistralOCR_catch t1.
Proof.
  intros Hcfg Hcred.
  unfold uploadMistralOCR, uploadMistralOCR_try, try_catch. rewrite Hcfg.
  erewrite run_bind_ok by reflexivity.
  by erewrite run_bind_ok by exact Hcred.
Qed.

Lemma uploadMistralOCR_credentials_throw req file ocrConfig cause t t1 :
  req_app_locals_ocr req = Some ocrConfig →
  uploadMistralOCR_credentials req ocrConfig t = (inl cause, t1) →
  uploadMistralOCR req file t
  = (inl (NewError (logAxiosError cause ingestion_error_message)),
     t1 ++ [EvLogAxiosError cause ingestion_error_message]).
Proof.
  intros Hcfg Hcred.
  unfold uploadMistralOCR, uploadMistralOCR_try, try_catch. rewrite Hcfg.
  erewrite run_bind_ok by reflexivity.
  by erewrite run_bind_throw by exact Hcred.
Qed.

Lemma after_credentials_emits ocrConfig file apiKey baseURL :
  emits (λ ev, is_lookup ev = false)
    (try_catch (uploadMistralOCR_stages ocrConfig file apiKey baseURL)
       uploadMistralOCR_catch).
Proof.
  apply emits_try; [apply uploadMistralOCR_stages_emits|].
  intros e. apply uploadMistralOCR_catch_emits.
Qed.

(** C4, as the code has it. When both configured strings are literal, not
    placeholders, and not blank (non-empty once trimmed), the credentials
    are the two strings unchanged, the requests run with them, and the log
    of the ingestion gains no secret-store lookup. *)
Theorem literal_credentials_skip_lookup
    req file ocrConfig apiKeyConfig baseURLConfig t :
  req_app_locals_ocr req = Some ocrConfig →
  ocr_apiKey ocrConfig = Some apiKeyConfig →
  ocr_baseURL ocrConfig = Some baseURLConfig →
  envVarRegex_test apiKeyConfig = false →
  envVarRegex_test baseURLConfig = false →
  Js.trim apiKeyConfig ≠ "" →
  Js.trim baseURLConfig ≠ "" →
  uploadMistralOCR_credentials req ocrConfig t
    = (inr (Some apiKeyConfig, Some baseURLConfig), t) ∧
  uploadMistralOCR req file t
    = try_catch
        (uploadMistralOCR_stages ocrConfig file (Some apiKeyConfig) (Some baseURLConfig))
        uploadMistralOCR_catch t ∧
  ∃ d, (uploadMistralOCR req file t).2 = t ++ d ∧ lookups d = [].
Proof.
  intros Hcfg Hk Hb Hkv Hbv Hkt Hbt.
  assert (config_apiKey ocrConfig = apiKeyConfig) as Hck.
  { unfold config_apiKey. by rewrite or_else_empty, Hk. }
  assert (config_baseURL ocrConfig = baseURLConfig) as Hcb.
  { unfold config_baseURL. by rewrite or_else_empty, Hb. }
  assert (uploadMistralOCR_credentials req ocrConfig t
          = (inr (Some apiKeyConfig, Some baseURLConfig), t)) as Hcred.
  { rewrite <- Hck, <- Hcb.
    apply uploadMistralOCR_credentials_literal; by rewrite ?Hck, ?Hcb. }
  split; [done|].
  rewrite (uploadMistralOCR_from_credentials _ file _ _ _ _ _ Hcfg Hcred).
  split; [done|].
  destruct (try_catch _ _ t) as [r t'] eqn:Hrun.
  apply after_credentials_emits in Hrun as (d & -> & Hd).
  exists d. split; [done|]. by apply no_lookup_lookups.
Qed.

(** C5, as the code has it. In the lookup branch one batched lookup is
    logged, for the base-URL name and the API-key name in that order. The
    name of a field is the name extracted from it when the field is a
    placeholder and the fallback name ([OCR_API_KEY], [OCR_BASEURL]) when
    it is not, an empty field included. The optional set is the singleton
    of the base-URL name: that name is optional, and the API-key name is
    required whenever it differs from the base-URL name. *)
Theorem lookup_variable_names req ocrConfig t :
  envVarRegex_test (config_apiKey ocrConfig) = true
  ∨ envVarRegex_test (config_baseURL ocrConfig) = true
  ∨ Js.trim (config_apiKey ocrConfig) = ""
  ∨ Js.trim (config_baseURL ocrConfig) = "" →
  ∃ apiKeyName baseURLName optional,
    lookups (uploadMistralOCR_credentials req ocrConfig t).2
    = lookups t ++ [(req_user_id req, [baseURLName; apiKeyName], optional)] ∧
    (envVarRegex_test (config_apiKey ocrConfig) = true →
     apiKeyName = extractVariableName (config_apiKey ocrConfig)) ∧
    (envVarRegex_test (config_apiKey ocrConfig) = false →
     apiKeyName = "OCR_API_KEY") ∧
    (envVarRegex_test (config_baseURL ocrConfig) = true →
     baseURLName = extractVariableName (config_baseURL ocrConfig)) ∧
    (envVarRegex_test (config_baseURL ocrConfig) = false →
     baseURLName = "OCR_BASEURL") ∧
    ¬ required optional baseURLName ∧
    (apiKeyName ≠ baseURLName → required optional apiKeyName).
Proof.
  intros Hbranch.
  exists (apiKeyVarName ocrConfig), (baseURLVarName ocrConfig), {[baseURLVarName ocrConfig]}.
  rewrite (uploadMistralOCR_credentials_lookup _ _ _ Hbranch). simpl.
  rewrite lookups_app. split; [done|].
  unfold apiKeyVarName, baseURLVarName, required.
  repeat split.
  - by intros ->.
  - by intros ->.
  - by intros ->.
  - by intros ->.
  - intros Hnot. apply Hnot. by apply elem_of_singleton.
  - by intros Hne ?%elem_of_singleton.
Qed.

(** C6, as the code has it. When the API-key field is a placeholder, the
    ingestion logs one secret-store lookup, for the base-URL name and the
    name extracted from the placeholder, the base-URL name alone being
    optional: the extracted name is required whenever it differs from the
    base-URL name.  When the store rejects that lookup, the name being
    unresolved, the ingestion throws the outward error built from the
    rejection and sends no request. *)
Theorem placeholder_api_key_is_looked_up req file ocrConfig t :
  req_app_locals_ocr req = Some ocrConfig →
  envVarRegex_test (config_apiKey ocrConfig) = true →
  ∃ d,
    (uploadMistralOCR req file t).2
    = t ++ EvLoadAuthValues (req_user_id req)
             [baseURLVarName ocrConfig; extractVariableName (config_apiKey ocrConfig)]
             {[baseURLVarName ocrConfig]} :: d ∧
    lookups d = [] ∧
    (extractVariableName (config_apiKey ocrConfig) ≠ baseURLVarName ocrConfig →
     required {[baseURLVarName ocrConfig]}
       (extractVariableName (config_apiKey ocrConfig))) ∧
    (extractVariableName (config_apiKey ocrConfig) = baseURLVarName ocrConfig →
     ¬ required {[baseURLVarName ocrConfig]}
         (extractVariableName (config_apiKey ocrConfig))) ∧
    ∀ cause,
      loadAuthValues (req_user_id req)
        [baseURLVarName ocrConfig; extractVariableName (config_apiKey ocrConfig)]
        {[baseURLVarName ocrConfig]}
      = inl cause →
      uploadMistralOCR req file t
      = (inl (NewError (logAxiosError cause ingestion_error_message)),
         t ++ [EvLoadAuthValues (req_user_id req)
                 [baseURLVarName ocrConfig; extractVariableName (config_apiKey ocrConfig)]
                 {[baseURLVarName ocrConfig]};
               EvLogAxiosError cause ingestion_error_message]).
Proof.
  intros Hcfg Hk.
  pose proof (uploadMistralOCR_credentials_lookup req ocrConfig t (or_introl Hk)) as Hcred.
  assert (apiKeyVarName ocrConfig = extractVariableName (config_apiKey ocrConfig)) as Hname.
  { unfold apiKeyVarName. by rewrite Hk. }
  rewrite Hname in Hcred.
  assert ((extractVariableName (config_apiKey ocrConfig) ≠ baseURLVarName ocrConfig →
           required {[baseURLVarName ocrConfig]}
             (extractVariableName (config_apiKey ocrConfig))) ∧
          (extractVariableName (config_apiKey ocrConfig) = baseURLVarName ocrConfig →
           ¬ required {[baseURLVarName ocrConfig]}
               (extractVariableName (config_apiKey ocrConfig)))) as [Hreq Hopt].
  { unfold required. split.
    - by intros Hne ?%elem_of_singleton.
    - intros -> Hnot. apply Hnot. by apply elem_of_singleton. }
  destruct (loadAuthValues _ _ _) as [cause|authValues] eqn:Hload.
  - rewrite (uploadMistralOCR_credentials_throw _ file _ _ _ _ Hcfg Hcred).
    eexists. simpl. split; [by rewrite <- List.app_assoc|]. split; [done|].
    split; [done|]. split; [done|].
    intros cause' [= <-]. by rewrite <- List.app_assoc.
  - rewrite (uploadMistralOCR_from_credentials _ file _ _ _ _ _ Hcfg Hcred).
    destruct (try_catch _ _ _) as [r t'] eqn:Hrun.
    apply after_credentials_emits in Hrun as (d & -> & Hd).
    exists d. simpl. split; [by rewrite <- List.app_assoc|].
    split; [by apply no_lookup_lookups|]. done.
Qed.

End Credentials.

Lemma upload_failure_stops_ingestion_witness :
  ∃ d,
    @uploadMistralOCR Sample.upload_rejected (Sample.request Sample.literal_config)
      Sample.a_pdf []
    = (inl (NewError
              (@logAxiosError Sample.upload_rejected (Rejected "socket hang up")
                 ingestion_error_message)), [] ++ d) ∧
    calls d = [FnUploadDocumentToMistral] ∧
    (FnGetSignedUrl ∉ calls d) ∧
    (FnPerformOCR ∉ calls d) ∧
    gets d = [] ∧
    length (posts d) = 1.
Proof.
  eapply (@upload_failure_stops_ingestion Sample.upload_rejected);
    [reflexivity | vm_compute; reflexivity ..].
Defined.

Lemma literal_credentials_skip_lookup_witness :
  ∃ d,
    (@uploadMistralOCR (Sample.answering []) (Sample.request Sample.literal_config)
       Sample.a_pdf []).2 = [] ++ d ∧
    lookups d = [].
Proof.
  eapply (@literal_credentials_skip_lookup (Sample.answering [])
            (Sample.request Sample.literal_config) Sample.a_pdf Sample.literal_config
            "sk-literal" "https://ocr.example/v1" []);
    try reflexivity; by vm_compute.
Defined.

(** C4 as stated fails on a blank literal: an API key of one space is a
    non-empty string and no placeholder, next to a literal base URL, and
    the ingestion looks both fallback names up in the secret store. *)
Lemma blank_api_key_is_looked_up :
  ocr_apiKey Sample.blank_key_config = Some " " ∧
  ocr_baseURL Sample.blank_key_config = Some "https://ocr.example/v1" ∧
  " " ≠ "" ∧
  "https://ocr.example/v1" ≠ "" ∧
  @envVarRegex_test (Sample.answering []) " " = false ∧
  @envVarRegex_test (Sample.answering []) "https://ocr.example/v1" = false ∧
  lookups (@uploadMistralOCR (Sample.answering []) (Sample.request Sample.blank_key_config)
             Sample.a_pdf []).2
  = [("user-1", ["OCR_BASEURL"; "OCR_API_KEY"], {["OCR_BASEURL"]})].
Proof. repeat split; try done; by vm_compute. Qed.

Lemma lookup_variable_names_witness :
  ∃ apiKeyName baseURLName optional,
    lookups (@uploadMistralOCR_credentials (Sample.answering [])
               (Sample.request Sample.placeholder_key_config)
               Sample.placeholder_key_config []).2
    = lookups [] ++ [("user-1", [baseURLName; apiKeyName], optional)] ∧
    apiKeyName = "MISTRAL_KEY" ∧
    baseURLName = "OCR_BASEURL" ∧
    ¬ required optional baseURLName ∧
    required optional apiKeyName.
Proof.
  destruct (@lookup_variable_names (Sample.answering [])
              (Sample.request Sample.placeholder_key_config)
              Sample.placeholder_key_config [] (or_introl eq_refl))
    as (apiKeyName & baseURLName & optional & Hlog & Hk & _ & _ & Hb & Hopt & Hreq).
  exists apiKeyName, baseURLName, optional.
  rewrite (Hk eq_refl), (Hb eq_refl) in *.
  repeat split; [done|done|]. by apply Hreq.
Defined.

(** C5 as stated fails when both fields hold the same placeholder: the one
    name is the API-key name and it is in the optional set, so it is not
    required. *)
Lemma same_placeholder_makes_api_key_optional :
  @envVarRegex_test (Sample.answering []) (config_apiKey Sample.same_placeholder_config)
    = true ∧
  @extractVariableName (Sample.answering []) (config_apiKey Sample.same_placeholder_config)
    = "MISTRAL" ∧
  lookups (@uploadMistralOCR_credentials (Sample.answering [])
             (Sample.request Sample.same_placeholder_config)
             Sample.same_placeholder_config []).2
    = [("user-1", ["MISTRAL"; "MISTRAL"], {["MISTRAL"]})] ∧
  ¬ required {["MISTRAL"]} "MISTRAL".
Proof.
  split; [by vm_compute|]. split; [by vm_compute|]. split; [by vm_compute|].
  intros Hreq. apply Hreq. by apply elem_of_singleton.
Qed.

Lemma placeholder_api_key_is_looked_up_witness :
  required {["OCR_BASEURL"]} "MISTRAL_KEY" ∧
  @uploadMistralOCR (Sample.answering []) (Sample.request Sample.placeholder_key_config)
    Sample.a_pdf []
  = (inl (NewError
            "Error uploading document to Mistral OCR API: No auth value for MISTRAL_KEY"),
     [EvLoadAuthValues "user-1" ["OCR_BASEURL"; "MISTRAL_KEY"] {["OCR_BASEURL"]};
      EvLogAxiosError (Rejected "No auth value for MISTRAL_KEY")
        ingestion_error_message]).
Proof.
  destruct (@placeholder_api_key_is_looked_up (Sample.answering [])
              (Sample.request Sample.placeholder_key_config) Sample.a_pdf
              Sample.placeholder_key_config [] eq_refl eq_refl)
    as (d & _ & _ & Hreq & _ & Hfail).
  split.
  - apply Hreq. by vm_compute.
  - apply (Hfail (Rejected "No auth value for MISTRAL_KEY")). by vm_compute.
Defined.

(** C6 as stated fails when both fields hold the same placeholder.  The
    store has no value for the extracted name: asked for it as a required
    name it rejects.  The ingestion asks for it as the one optional name,
    so the lookup is answered, the API key is [undefined], and the
    ingestion sends its three requests and returns. *)
Lemma same_placeholder_unresolved_key_returns :
  @envVarRegex_test (Sample.answering [Sample.hello_page])
    (config_apiKey Sample.same_placeholder_config) = true ∧
  @extractVariableName (Sample.answering [Sample.hello_page])
    (config_apiKey Sample.same_placeholder_config) = "MISTRAL" ∧
  @loadAuthValues (Sample.answering [Sample.hello_page]) "user-1" ["MISTRAL"] ∅
    = inl (Rejected "No auth value for MISTRAL") ∧
  lookups (@uploadMistralOCR (Sample.answering [Sample.hello_page])
             (Sample.request Sample.same_placeholder_config) Sample.a_pdf []).2
    = [("user-1", ["MISTRAL"; "MISTRAL"], {["MISTRAL"]})] ∧
  (@uploadMistralOCR (Sample.answering [Sample.hello_page])
     (Sample.request Sample.same_placeholder_config) Sample.a_pdf []).1
    = inr Sample.hello_output ∧
  length (requests (@uploadMistralOCR (Sample.answering [Sample.hello_page])
                      (Sample.request Sample.same_placeholder_config) Sample.a_pdf []).2)
    = 3.
Proof. repeat split; by vm_compute. Qed.

Lemma performOCR_posts_body_witness :
  ∃ config r d,
    @performOCR (Sample.answering []) (Some "sk-literal") (Some "https://files.example/signed")
      (Some "image_url") None None []
    = (r, [EvCall FnPerformOCR;
           EvAxiosPost "https://api.mistral.ai/v1/ocr"
             (BodyJson
                (JsObject
                   [("model", JsString "mistral-ocr-latest");
                    ("include_image_base64", JsBool false);
                    ("document",
                     JsObject [("type", JsString "image_url");
                               ("image_url", JsString "https://files.example/signed")])]))
             config] ++ d).
Proof.
  destruct (@performOCR_posts_body (Sample.answering []) (Some "sk-literal")
              (Some "https://files.example/signed") (Some "image_url") None None [])
    as (type & documentKey & config & r & d & Hrun & Htype & _ & Hkey & _).
  assert (documentKey = "image_url") as Hk by (by apply Hkey).
  exists config, r, d. rewrite Hrun, Htype, Hk. reflexivity.
Defined.

(** *** Media kind *)

Section MediaKind.

Lemma unit_matches_dot c : Regex.unit_matches true "." c = Ascii.eqb c ".".
Proof. by destruct c as [[] [] [] [] [] [] [] []]. Qed.

Lemma lower_dot c : Ascii.eqb (Js.toLowerCase_unit c) "." = Ascii.eqb c ".".
Proof. by destruct c as [[] [] [] [] [] [] [] []]. Qed.

Lemma unit_matches_letter l c :
  l ∈ pattern_letters →
  Regex.unit_matches true l c = Ascii.eqb (Js.toLowerCase_unit c) l.
Proof.
  unfold pattern_letters. rewrite !elem_of_cons, elem_of_nil.
  intros Hl.
  repeat (destruct Hl as [->|Hl]; [by destruct c as [[] [] [] [] [] [] [] []]|]).
  done.
Qed.

Local Arguments Js.toLowerCase_unit : simpl never.
Local Arguments Regex.unit_matches : simpl never.

Ltac letters :=
  repeat match goal with
  | |- context [Regex.unit_matches true ?l ?c] =>
      first [ rewrite (unit_matches_dot c)
            | rewrite (unit_matches_letter l c)
                by (unfold pattern_letters; rewrite !elem_of_cons; tauto) ]
  end.

Ltac known :=
  letters;
  repeat match goal with
  | H : Js.toLowerCase_unit ?c = _ |- context [Js.toLowerCase_unit ?c] => rewrite H
  | H : Ascii.eqb ?a ?b = false |- context [Ascii.eqb ?a ?b] => rewrite H
  end;
  simpl.

Ltac decide_atoms :=
  repeat (known;
          match goal with
          | |- context [Ascii.eqb (Js.toLowerCase_unit ?c) ?b] =>
              let E := fresh "E" in
              destruct (Ascii.eqb (Js.toLowerCase_unit c) b) eqn:E;
              [apply Ascii.eqb_eq in E|]
          | |- context [Ascii.eqb ?c "."] =>
              let E := fresh "E" in
              destruct (Ascii.eqb c ".") eqn:E
          end);
  known; try reflexivity.

Ltac next_char s := destruct s as [|? s]; simpl; decide_atoms.

Lemma matches_at_dot_ext s :
  Regex.matches_at true image_extension_regex s = dot_ext s.
Proof.
  unfold Regex.matches_at, dot_ext, image_extension_regex, image_extensions.
  destruct s as [|c0 s]; [reflexivity|].
  simpl. decide_atoms.
  do 5 (try next_char s).
Qed.

Lemma has_dot_toLowerCase s : has_dot (Js.toLowerCase s) = has_dot s.
Proof.
  unfold has_dot. induction s as [|c s IH]; [done|].
  simpl. by rewrite lower_dot, IH.
Qed.

Lemma extension_no_dot s : has_dot s = false → extension s = None.
Proof.
  unfold has_dot. induction s as [|c s IH]; [done|].
  simpl. intros [Hc Hs]%orb_false_iff. by rewrite (IH Hs), Hc.
Qed.

Lemma image_extension_no_dot e :
  existsb (String.eqb (Js.toLowerCase e)) image_extensions = true → has_dot e = false.
Proof.
  rewrite <- has_dot_toLowerCase.
  unfold image_extensions. simpl. rewrite !orb_true_iff, !String.eqb_eq.
  intros H. repeat (destruct H as [->|H]; [done|]). done.
Qed.

(** The literal accepts a name exactly when its extension is a listed
    one, up to case. *)
Lemma image_extension_regex_test name :
  Regex.test true image_extension_regex name = has_image_extension name.
Proof.
  unfold has_image_extension.
  induction name as [|c rest IH]; [done|].
  change (Regex.test true image_extension_regex (String c rest))
    with (Regex.matches_at true image_extension_regex (String c rest)
          || Regex.test true image_extension_regex rest).
  rewrite matches_at_dot_ext, IH.
  change (extension (String c rest))
    with (match extension rest with
          | Some e => Some e
          | None => if Ascii.eqb c "." then Some rest else None
          end).
  unfold dot_ext.
  destruct (existsb (String.eqb (Js.toLowerCase rest)) image_extensions) eqn:Hext.
  - rewrite (extension_no_dot _ (image_extension_no_dot _ Hext)).
    destruct (Ascii.eqb c "."); simpl; by rewrite ?Hext.
  - rewrite andb_false_r. simpl.
    destruct (extension rest); [done|].
    destruct (Ascii.eqb c "."); simpl; by rewrite ?Hext.
Qed.

(** C8, as the code has it. A file is an image exactly when its MIME type
    in lower case starts with [image] or the extension of its name is, up
    to case, one of png, jpg, jpeg, gif, bmp, webp, tiff, tif; the document
    type is [image_url] for an image and [document_url] otherwise.
    [scan.PNG] sent as application/octet-stream is an image, [report.pdf]
    sent as application/pdf is a document. *)
Theorem media_kind file :
  (isImage file = true ↔
   Js.startsWith (Js.toLowerCase (Js.or_else (file_mimetype file) "")) "image" = true
   ∨ has_image_extension (Js.or_else (file_originalname file) "") = true) ∧
  uploadMistralOCR_documentType file
    = (if isImage file then "image_url" else "document_url") ∧
  (file_originalname file = Some "scan.PNG" →
   file_mimetype file = Some "application/octet-stream" →
   uploadMistralOCR_documentType file = "image_url") ∧
  (file_originalname file = Some "report.pdf" →
   file_mimetype file = Some "application/pdf" →
   uploadMistralOCR_documentType file = "document_url").
Proof.
  unfold uploadMistralOCR_documentType, isImage.
  rewrite image_extension_regex_test, orb_true_iff.
  repeat split; try tauto; by intros -> ->.
Qed.

End MediaKind.

(** C8 as stated fails on a MIME type in upper case: [IMAGE/PNG] does not
    start with [image] and the name [scan] has no extension, yet the file
    is classified as an image. *)
Lemma uppercase_mime_is_image :
  Js.startsWith "IMAGE/PNG" "image" = false ∧
  has_image_extension "scan" = false ∧
  uploadMistralOCR_documentType
    {| file_path := "/tmp/upload-2";
       file_originalname := Some "scan";
       file_mimetype := Some "IMAGE/PNG" |} = "image_url".
Proof. by vm_compute. Qed.

Lemma media_kind_witness :
  uploadMistralOCR_documentType
    {| file_path := "/tmp/upload-3";
       file_originalname := Some "scan.PNG";
       file_mimetype := Some "application/octet-stream" |} = "image_url".
Proof.
  by apply (media_kind
              {| file_path := "/tmp/upload-3";
                 file_originalname := Some "scan.PNG";
                 file_mimetype := Some "application/octet-stream" |}).
Defined.

(** ** Further properties of the module *)

(** *** The three request functions *)

Section Requests.

Context `{W : World}.

Lemma actualFileName_spec filePath fileName :
  (if Js.truthy (Js.default_param fileName "")
   then Js.default_param fileName "" else path_basename filePath)
  = actualFileName filePath fileName.
Proof.
  unfold actualFileName, Js.truthy. destruct fileName as [name|]; simpl; [|done].
  by destruct (String.eqb name "").
Qed.

(** X1. [uploadDocumentToMistral] sends one multipart POST to
    [{baseURL}/files], the default base URL when none is given, with the
    field [purpose=ocr] and the file under [fileName] or, when that is
    missing or empty, under the base name of the path; body and answer
    sizes are unbounded.  Its outcome is the client's: the data of the
    answer, or the same error rethrown after one [logger.error] line. *)
Theorem uploadDocumentToMistral_one_request filePath fileName apiKey baseURL t :
  ∃ url form config,
    url = Js.default_param baseURL "https://api.mistral.ai/v1" +:+ "/files" ∧
    form = [FieldValue "purpose" "ocr";
            FieldFile "file" filePath (actualFileName filePath fileName)] ∧
    headers config
      = ("Authorization", "Bearer " +:+ Js.template apiKey) :: form_getHeaders form ∧
    maxBodyLength config = LimitInfinity ∧
    maxContentLength config = LimitInfinity ∧
    uploadDocumentToMistral filePath fileName apiKey baseURL t
    = (axios_post url (BodyForm form) config,
       t ++ [EvCall FnUploadDocumentToMistral; EvAxiosPost url (BodyForm form) config]
         ++ match axios_post url (BodyForm form) config with
            | inl error =>
                [EvLoggerError "Error uploading document to Mistral:" (error_message error)]
            | inr _ => []
            end).
Proof.
  unfold uploadDocumentToMistral, mbind, M_bind, bind, try_catch, emit, settle, throw.
  simpl. rewrite actualFileName_spec.
  match goal with |- context [axios_post ?u (BodyForm ?f) ?c] =>
    exists u, f, c; destruct (axios_post u (BodyForm f) c)
  end.
  all: repeat split; by rewrite <- ?List.app_assoc.
Qed.

(** X2. [getSignedUrl] sends one GET to
    [{baseURL}/files/{fileId}/url?expiry={expiry}], with 24 for a missing
    expiry and the default base URL for a missing one, under the bearer
    token; its outcome is the client's, an error being rethrown unchanged
    after one [logger.error] line. *)
Theorem getSignedUrl_one_request apiKey fileId expiry baseURL t :
  ∃ url config,
    url = Js.default_param baseURL "https://api.mistral.ai/v1"
          +:+ "/files/" +:+ Js.template fileId
          +:+ "/url?expiry=" +:+ pretty (Js.default_param expiry 24) ∧
    headers config = [("Authorization", "Bearer " +:+ Js.template apiKey)] ∧
    getSignedUrl apiKey fileId expiry baseURL t
    = (axios_get url config,
       t ++ [EvCall FnGetSignedUrl; EvAxiosGet url config]
         ++ match axios_get url config with
            | inl error => [EvLoggerError "Error fetching signed URL:" (error_message error)]
            | inr _ => []
            end).
Proof.
  unfold getSignedUrl, mbind, M_bind, bind, try_catch, emit, settle, throw.
  simpl.
  match goal with |- context [axios_get ?u ?c] =>
    exists u, c; destruct (axios_get u c)
  end.
  all: repeat split; by rewrite <- ?List.app_assoc.
Qed.

(** X3. [performOCR] sends one JSON POST to [{baseURL}/ocr] under the bearer
    token, with [mistral-ocr-latest] for a missing model; its outcome is
    the client's, an error being rethrown unchanged after one
    [logger.error] line. *)
Theorem performOCR_one_request apiKey url documentType model baseURL t :
  ∃ endpoint body config,
    endpoint = Js.default_param baseURL "https://api.mistral.ai/v1" +:+ "/ocr" ∧
    body = BodyJson (performOCR_body url
                       (Js.default_param documentType "document_url")
                       (Js.default_param model "mistral-ocr-latest")) ∧
    headers config = [("Content-Type", "application/json");
                      ("Authorization", "Bearer " +:+ Js.template apiKey)] ∧
    performOCR apiKey url documentType model baseURL t
    = (axios_post endpoint body config,
       t ++ [EvCall FnPerformOCR; EvAxiosPost endpoint body config]
         ++ match axios_post endpoint body config with
            | inl error => [EvLoggerError "Error performing OCR:" (error_message error)]
            | inr _ => []
            end).
Proof.
  unfold performOCR, mbind, M_bind, bind, try_catch, emit, settle, throw.
  simpl.
  match goal with |- context [axios_post ?u ?b ?c] =>
    exists u, b, c; destruct (axios_post u b c)
  end.
  all: repeat split; by rewrite <- ?List.app_assoc.
Qed.

End Requests.

(** *** Outcomes of the ingestion *)

Section Outcomes.

Context `{W : World}.

Lemma reports_app (d1 d2 : Log) : reports (d1 ++ d2) = reports d1 ++ reports d2.
Proof. apply omap_app. Qed.

Lemma requests_app (d1 d2 : Log) : requests (d1 ++ d2) = requests d1 ++ requests d2.
Proof. apply omap_app. Qed.

Lemma logged_app (d1 d2 : Log) : logged (d1 ++ d2) = logged d1 ++ logged d2.
Proof. apply omap_app. Qed.

Ltac run_stage client :=
  unfold mbind, M_bind, bind, try_catch, emit, settle, throw; simpl;
  match goal with
  | |- context [client ?u ?c] => destruct (client u c)
  | |- context [client ?u ?b ?c] => destruct (client u b c)
  end;
  intros [= <- <-]; eexists; (split; [by rewrite <- ?List.app_assoc|done]).

Lemma uploadDocumentToMistral_delta filePath fileName apiKey baseURL t r t' :
  uploadDocumentToMistral filePath fileName apiKey baseURL t = (r, t') →
  ∃ d, t' = t ++ d ∧ stage_delta FnUploadDocumentToMistral d.
Proof. unfold uploadDocumentToMistral. run_stage @axios_post. Qed.

Lemma getSignedUrl_delta apiKey fileId expiry baseURL t r t' :
  getSignedUrl apiKey fileId expiry baseURL t = (r, t') →
  ∃ d, t' = t ++ d ∧ stage_delta FnGetSignedUrl d.
Proof. unfold getSignedUrl. run_stage @axios_get. Qed.

Lemma performOCR_delta apiKey url documentType model baseURL t r t' :
  performOCR apiKey url documentType model baseURL t = (r, t') →
  ∃ d, t' = t ++ d ∧ stage_delta FnPerformOCR d.
Proof. unfold performOCR. run_stage @axios_post. Qed.

(** What the credentials block adds: at most one lookup, nothing else. *)
Lemma uploadMistralOCR_credentials_delta req ocrConfig t r t' :
  uploadMistralOCR_credentials req ocrConfig t = (r, t') →
  ∃ d, t' = t ++ d ∧
    calls d = [] ∧ requests d = [] ∧ reports d = [] ∧ length (lookups d) ≤ 1 ∧
    length d = length (lookups d).
Proof.
  unfold uploadMistralOCR_credentials.
  match goal with |- context [if ?b then _ else _] => destruct b end.
  - unfold mbind, M_bind, bind, emit, settle. simpl.
    destruct (loadAuthValues _ _ _); intros [= <- <-]; eexists; (split; [done|]);
      repeat split; simpl; lia.
  - intros [= <- <-]. exists []. rewrite app_nil_r. repeat split; simpl; lia.
Qed.

Ltac close_run :=
  repeat split;
  first [ done | by eexists | by intros [? [=]] | by apply prefix_nil | simpl; lia ].

Lemma stage_delta_app d1 g d2 cs :
  calls d1 = cs ∧ length (requests d1) = length cs ∧ lookups d1 = [] ∧ reports d1 = [] →
  stage_delta g d2 →
  calls (d1 ++ d2) = cs ++ [g] ∧
  length (requests (d1 ++ d2)) = length (cs ++ [g]) ∧
  lookups (d1 ++ d2) = [] ∧ reports (d1 ++ d2) = [].
Proof.
  intros (Hc1 & Hr1 & Hl1 & Hp1) (Hc2 & Hr2 & Hl2 & Hp2).
  rewrite calls_app, requests_app, lookups_app, reports_app.
  rewrite Hc1, Hc2, Hl1, Hl2, Hp1, Hp2, !length_app, Hr1, Hr2. by simpl.
Qed.

(** The runs of lines 162-218: the functions are entered in the order
    upload, signed URL, OCR, each at most once and each sending one
    request; a run that returns entered all three. *)
Lemma uploadMistralOCR_stages_delta ocrConfig file apiKey baseURL t r t' :
  uploadMistralOCR_stages ocrConfig file apiKey baseURL t = (r, t') →
  ∃ d, t' = t ++ d ∧
    calls d `prefix_of` [FnUploadDocumentToMistral; FnGetSignedUrl; FnPerformOCR] ∧
    length (requests d) = length (calls d) ∧
    lookups d = [] ∧ reports d = [] ∧
    (is_Some (match r with inr out => Some out | inl _ => None end) →
     calls d = [FnUploadDocumentToMistral; FnGetSignedUrl; FnPerformOCR]).
Proof.
  unfold uploadMistralOCR_stages. intros Hrun.
  destruct (uploadDocumentToMistral (file_path file) (file_originalname file)
              apiKey baseURL t) as [[e|mistralFile] t1] eqn:Hup;
    pose proof (uploadDocumentToMistral_delta _ _ _ _ _ _ _ Hup) as (d1 & -> & H1).
  { rewrite (run_bind_throw _ _ _ _ _ Hup) in Hrun. injection Hrun as <- <-.
    exists d1. destruct H1 as (Hc & Hr & Hl & Hp). rewrite Hc, Hr.
    close_run. }
  rewrite (run_bind_ok _ _ _ _ _ Hup) in Hrun.
  destruct (getSignedUrl apiKey (data_id mistralFile) None baseURL (t ++ d1))
    as [[e|signedUrlResponse] t2] eqn:Hurl;
    pose proof (getSignedUrl_delta _ _ _ _ _ _ _ Hurl) as (d2 & -> & H2).
  all: assert (calls (d1 ++ d2) = [FnUploadDocumentToMistral] ++ [FnGetSignedUrl]
               ∧ length (requests (d1 ++ d2))
                 = length ([FnUploadDocumentToMistral] ++ [FnGetSignedUrl])
               ∧ lookups (d1 ++ d2) = [] ∧ reports (d1 ++ d2) = []) as H12
    by (apply stage_delta_app; [|done];
        destruct H1 as (? & ? & ? & ?); by repeat split).
  { rewrite (run_bind_throw _ _ _ _ _ Hurl) in Hrun. injection Hrun as <- <-.
    exists (d1 ++ d2). destruct H12 as (Hc & Hr & Hl & Hp). rewrite Hc, Hr.
    split; [by rewrite List.app_assoc|].
    close_run. }
  rewrite (run_bind_ok _ _ _ _ _ Hurl) in Hrun.
  destruct (performOCR apiKey (data_url signedUrlResponse)
              (Some (uploadMistralOCR_documentType file))
              (Some (uploadMistralOCR_model ocrConfig)) baseURL ((t ++ d1) ++ d2))
    as [[e|ocrResult] t3] eqn:Hocr;
    pose proof (performOCR_delta _ _ _ _ _ _ _ _ Hocr) as (d3 & -> & H3).
  all: pose proof (stage_delta_app _ _ _ _ H12 H3) as (Hc & Hr & Hl & Hp).
  all: simpl in Hc, Hr.
  { rewrite (run_bind_throw _ _ _ _ _ Hocr) in Hrun. injection Hrun as <- <-.
    exists ((d1 ++ d2) ++ d3). rewrite Hc, Hr.
    split; [by rewrite !List.app_assoc|]. close_run. }
  rewrite (run_bind_ok _ _ _ _ _ Hocr) in Hrun.
  exists ((d1 ++ d2) ++ d3). rewrite Hc, Hr.
  destruct (data_pages ocrResult) as [pages|].
  - erewrite run_bind_ok in Hrun by reflexivity. injection Hrun as <- <-.
    split; [by rewrite !List.app_assoc|]. close_run.
  - erewrite run_bind_throw in Hrun by reflexivity. injection Hrun as <- <-.
    split; [by rewrite !List.app_assoc|]. close_run.
Qed.

(** The runs of the [try] body: nothing is reported from inside it, the
    lookup, if any, comes first. *)
Lemma uploadMistralOCR_try_delta req file t r t' :
  uploadMistralOCR_try req file t = (r, t') →
  ∃ dl ds, t' = t ++ dl ++ ds ∧
    length dl = length (lookups dl) ∧ length dl ≤ 1 ∧
    calls dl = [] ∧ requests dl = [] ∧ reports dl = [] ∧
    calls ds `prefix_of` [FnUploadDocumentToMistral; FnGetSignedUrl; FnPerformOCR] ∧
    length (requests ds) = length (calls ds) ∧
    lookups ds = [] ∧ reports ds = [] ∧
    (is_Some (match r with inr out => Some out | inl _ => None end) →
     calls ds = [FnUploadDocumentToMistral; FnGetSignedUrl; FnPerformOCR]).
Proof.
  unfold uploadMistralOCR_try. intros Hrun.
  destruct (req_app_locals_ocr req) as [ocrConfig|].
  2:{ erewrite run_bind_throw in Hrun by reflexivity. injection Hrun as <- <-.
      exists [], []. rewrite !app_nil_r. close_run. }
  erewrite run_bind_ok in Hrun by reflexivity.
  destruct (uploadMistralOCR_credentials req ocrConfig t) as [[e|[apiKey baseURL]] t1] eqn:Hcred;
    pose proof (uploadMistralOCR_credentials_delta _ _ _ _ _ Hcred)
      as (dl & -> & Hc & Hq & Hp & Hl & Hlen).
  { rewrite (run_bind_throw _ _ _ _ _ Hcred) in Hrun. injection Hrun as <- <-.
    exists dl, []. rewrite !app_nil_r. close_run. }
  rewrite (run_bind_ok _ _ _ _ _ Hcred) in Hrun.
  apply uploadMistralOCR_stages_delta in Hrun as (ds & -> & Hs).
  exists dl, ds. split; [by rewrite List.app_assoc|].
  repeat split; try done; try lia; apply Hs.
Qed.

(** X4. The ingestion throws nothing but the [Error] of line 221, built from
    the error caught, and [logAxiosError] is called once when it throws and
    not at all when it returns. *)
Theorem failure_is_reported_once req file t r t' :
  uploadMistralOCR req file t = (r, t') →
  ∃ d, t' = t ++ d ∧
    match r with
    | inl error =>
        ∃ cause,
          error = NewError (logAxiosError cause "Error uploading document to Mistral OCR API") ∧
          reports d = [(cause, "Error uploading document to Mistral OCR API")]
    | inr _ => reports d = []
    end.
Proof.
  unfold uploadMistralOCR, try_catch.
  destruct (uploadMistralOCR_try req file t) as [[cause|out] t1] eqn:Htry;
    pose proof (uploadMistralOCR_try_delta _ _ _ _ _ Htry)
      as (dl & ds & -> & _ & _ & _ & _ & Hpl & _ & _ & _ & Hps & _).
  - rewrite uploadMistralOCR_catch_throws. intros [= <- <-].
    exists ((dl ++ ds) ++ [EvLogAxiosError cause ingestion_error_message]).
    split; [by rewrite !List.app_assoc|]. exists cause. split; [done|].
    by rewrite !reports_app, Hpl, Hps.
  - intros [= <- <-]. exists (dl ++ ds). split; [done|].
    by rewrite reports_app, Hpl, Hps.
Qed.

(** X5. In every run the secret store is consulted at most once and before
    any request; the three functions are entered in the order upload,
    signed URL, OCR, none twice, and each one entered sends exactly one
    request: there is no retry.  A run that returns entered all three. *)
Theorem stages_run_in_order req file t r t' :
  uploadMistralOCR req file t = (r, t') →
  ∃ dl ds,
    t' = t ++ dl ++ ds ∧
    length dl ≤ 1 ∧ length (lookups dl) = length dl ∧
    lookups ds = [] ∧
    calls (dl ++ ds) `prefix_of` [FnUploadDocumentToMistral; FnGetSignedUrl; FnPerformOCR] ∧
    length (requests (dl ++ ds)) = length (calls (dl ++ ds)) ∧
    (is_Some (match r with inr out => Some out | inl _ => None end) →
     calls (dl ++ ds) = [FnUploadDocumentToMistral; FnGetSignedUrl; FnPerformOCR]).
Proof.
  unfold uploadMistralOCR, try_catch.
  destruct (uploadMistralOCR_try req file t) as [[cause|out] t1] eqn:Htry;
    pose proof (uploadMistralOCR_try_delta _ _ _ _ _ Htry)
      as (dl & ds & -> & Hlen & Hle & Hcl & Hql & _ & Hpre & Hreq & Hls & _ & Hok).
  - rewrite uploadMistralOCR_catch_throws. intros [= <- <-].
    exists dl, (ds ++ [EvLogAxiosError cause ingestion_error_message]).
    split; [by rewrite <- !List.app_assoc|].
    rewrite !calls_app, !requests_app, !lookups_app, Hcl, Hql, Hls. simpl.
    rewrite !app_nil_r. close_run.
  - intros [= <- <-]. exists dl, ds. split; [done|].
    rewrite !calls_app, !requests_app, Hcl, Hql. simpl. close_run.
Qed.

End Outcomes.

(** *** Where an ingestion stops *)

Section Stops.

Context `{W : World}.

Lemma Answered_Ingests req file t pages t' :
  Ingests req file t pages t' ↔
  ∃ ocrResult, Answered req file t ocrResult t' ∧ data_pages ocrResult = Some pages.
Proof.
  split.
  - intros [cfg apiKey baseURL t1 mf t2 su t3 ocr Hcfg Hcred Hup Hurl Hocr Hpages].
    exists ocr. split; [by econstructor|done].
  - intros (ocr & [cfg apiKey baseURL t1 mf t2 su t3 Hcfg Hcred Hup Hurl Hocr] & Hpages).
    by econstructor.
Qed.

Lemma uploadMistralOCR_from_try req file t cause t1 :
  uploadMistralOCR_try req file t = (inl cause, t1) →
  uploadMistralOCR req file t
  = (inl (NewError (logAxiosError cause ingestion_error_message)),
     t1 ++ [EvLogAxiosError cause ingestion_error_message]).
Proof.
  intros Htry. unfold uploadMistralOCR.
  by rewrite (run_try_throw _ _ _ _ _ Htry), uploadMistralOCR_catch_throws.
Qed.

(** X6. Without OCR configuration ([req.app.locals.ocr] undefined) the
    ingestion throws the outward error built from a [TypeError]; the
    secret store is not consulted and no request is sent: the report is
    the only log entry. *)
Theorem missing_configuration_throws req file t :
  req_app_locals_ocr req = None →
  ∃ message,
    uploadMistralOCR req file t
    = (inl (NewError (logAxiosError (TypeError message)
                        "Error uploading document to Mistral OCR API")),
       t ++ [EvLogAxiosError (TypeError message)
               "Error uploading document to Mistral OCR API"]).
Proof.
  intros Hcfg. eexists. apply uploadMistralOCR_from_try.
  unfold uploadMistralOCR_try. rewrite Hcfg.
  by erewrite run_bind_throw by reflexivity.
Qed.

(** X7. When the signed URL stage throws, after a successful upload, the
    ingestion throws the outward error built from that cause; the upload
    and the signed URL function were entered, two requests were sent, and
    [performOCR] did not run. *)
Theorem signed_url_failure_stops_ingestion
    req file ocrConfig apiKey baseURL t t1 mistralFile t2 cause t3 :
  req_app_locals_ocr req = Some ocrConfig →
  uploadMistralOCR_credentials req ocrConfig t = (inr (apiKey, baseURL), t1) →
  uploadDocumentToMistral (file_path file) (file_originalname file) apiKey baseURL t1
    = (inr mistralFile, t2) →
  getSignedUrl apiKey (data_id mistralFile) None baseURL t2 = (inl cause, t3) →
  ∃ d,
    uploadMistralOCR req file t
    = (inl (NewError (logAxiosError cause "Error uploading document to Mistral OCR API")),
       t ++ d) ∧
    calls d = [FnUploadDocumentToMistral; FnGetSignedUrl] ∧
    (FnPerformOCR ∉ calls d) ∧
    length (requests d) = 2.
Proof.
  intros Hcfg Hcred Hup Hurl.
  assert (uploadMistralOCR_try req file t = (inl cause, t3)) as Htry.
  { unfold uploadMistralOCR_try. rewrite Hcfg.
    erewrite run_bind_ok by reflexivity.
    erewrite run_bind_ok by exact Hcred.
    unfold uploadMistralOCR_stages.
    erewrite run_bind_ok by exact Hup.
    by erewrite run_bind_throw by exact Hurl. }
  apply uploadMistralOCR_credentials_delta in Hcred as (dl & -> & Hcl & Hql & _).
  apply uploadDocumentToMistral_delta in Hup as (d1 & -> & Hc1 & Hq1 & _).
  apply getSignedUrl_delta in Hurl as (d2 & -> & Hc2 & Hq2 & _).
  rewrite (uploadMistralOCR_from_try _ _ _ _ _ Htry).
  eexists. split; [by rewrite <- !List.app_assoc|].
  rewrite !calls_app, !requests_app, !length_app, Hcl, Hql, Hc1, Hq1, Hc2, Hq2. simpl.
  split; [done|]. split; [|done].
  by intros [[=]|[[=]|?%elem_of_nil]%elem_of_cons]%elem_of_cons.
Qed.

(** X8. When the OCR stage throws, after the upload and the signed URL, the
    ingestion throws the outward error built from that cause and returns
    no output; the three functions were entered once each. *)
Theorem ocr_failure_stops_ingestion
    req file ocrConfig apiKey baseURL t t1 mistralFile t2 signedUrlResponse t3 cause t4 :
  req_app_locals_ocr req = Some ocrConfig →
  uploadMistralOCR_credentials req ocrConfig t = (inr (apiKey, baseURL), t1) →
  uploadDocumentToMistral (file_path file) (file_originalname file) apiKey baseURL t1
    = (inr mistralFile, t2) →
  getSignedUrl apiKey (data_id mistralFile) None baseURL t2 = (inr signedUrlResponse, t3) →
  performOCR apiKey (data_url signedUrlResponse)
      (Some (uploadMistralOCR_documentType file))
      (Some (uploadMistralOCR_model ocrConfig)) baseURL t3
    = (inl cause, t4) →
  ∃ d,
    uploadMistralOCR req file t
    = (inl (NewError (logAxiosError cause "Error uploading document to Mistral OCR API")),
       t ++ d) ∧
    calls d = [FnUploadDocumentToMistral; FnGetSignedUrl; FnPerformOCR] ∧
    length (requests d) = 3.
Proof.
  intros Hcfg Hcred Hup Hurl Hocr.
  assert (uploadMistralOCR_try req file t = (inl cause, t4)) as Htry.
  { unfold uploadMistralOCR_try. rewrite Hcfg.
    erewrite run_bind_ok by reflexivity.
    erewrite run_bind_ok by exact Hcred.
    unfold uploadMistralOCR_stages.
    erewrite run_bind_ok by exact Hup.
    erewrite run_bind_ok by exact Hurl.
    by erewrite run_bind_throw by exact Hocr. }
  apply uploadMistralOCR_credentials_delta in Hcred as (dl & -> & Hcl & Hql & _).
  apply uploadDocumentToMistral_delta in Hup as (d1 & -> & Hc1 & Hq1 & _).
  apply getSignedUrl_delta in Hurl as (d2 & -> & Hc2 & Hq2 & _).
  apply performOCR_delta in Hocr as (d3 & -> & Hc3 & Hq3 & _).
  rewrite (uploadMistralOCR_from_try _ _ _ _ _ Htry).
  eexists. split; [by rewrite <- !List.app_assoc|].
  rewrite !calls_app, !requests_app, !length_app.
  by rewrite Hcl, Hql, Hc1, Hq1, Hc2, Hq2, Hc3, Hq3.
Qed.

(** X9. When the OCR endpoint answers without [pages], the ingestion throws
    the outward error built from a [TypeError], after the three requests,
    and returns no output. *)
Theorem answer_without_pages_throws req file t ocrResult t' :
  Answered req file t ocrResult t' →
  data_pages ocrResult = None →
  ∃ message,
    uploadMistralOCR req file t
    = (inl (NewError (logAxiosError (TypeError message)
                        "Error uploading document to Mistral OCR API")),
       t' ++ [EvLogAxiosError (TypeError message)
                "Error uploading document to Mistral OCR API"]).
Proof.
  intros [cfg apiKey baseURL t1 mf t2 su t3 Hcfg Hcred Hup Hurl Hocr] Hpages.
  eexists. apply uploadMistralOCR_from_try.
  unfold uploadMistralOCR_try. rewrite Hcfg.
  erewrite run_bind_ok by reflexivity.
  erewrite run_bind_ok by exact Hcred.
  unfold uploadMistralOCR_stages.
  erewrite run_bind_ok by exact Hup.
  erewrite run_bind_ok by exact Hurl.
  erewrite run_bind_ok by exact Hocr.
  rewrite Hpages. by erewrite run_bind_throw by reflexivity.
Qed.

End Stops.

(** *** The requests of an ingestion that is answered *)

Section DataFlow.

Context `{W : World}.

Lemma uploadDocumentToMistral_returns filePath fileName apiKey baseURL t data t' :
  uploadDocumentToMistral filePath fileName apiKey baseURL t = (inr data, t') →
  ∃ config,
    axios_post (Js.default_param baseURL default_baseURL +:+ "/files")
      (BodyForm [FieldValue "purpose" "ocr";
                 FieldFile "file" filePath (actualFileName filePath fileName)])
      config = inr data ∧
    t' = t ++ [EvCall FnUploadDocumentToMistral;
               EvAxiosPost (Js.default_param baseURL default_baseURL +:+ "/files")
                 (BodyForm [FieldValue "purpose" "ocr";
                            FieldFile "file" filePath (actualFileName filePath fileName)])
                 config] ∧
    ("Authorization", "Bearer " +:+ Js.template apiKey) ∈ headers config.
Proof.
  unfold uploadDocumentToMistral.
  unfold mbind, M_bind, bind, try_catch, emit, settle, throw; simpl.
  rewrite actualFileName_spec.
  intros Hrun.
  match type of Hrun with
  | context [axios_post ?u ?b ?c] =>
      destruct (axios_post u b c) eqn:Hanswer; [done|]; exists c
  end.
  injection Hrun as <- <-. rewrite <- ?List.app_assoc. repeat split; try done.
  simpl. apply elem_of_cons. by left.
Qed.

Lemma getSignedUrl_returns apiKey fileId baseURL t data t' :
  getSignedUrl apiKey fileId None baseURL t = (inr data, t') →
  ∃ config,
    axios_get (Js.default_param baseURL default_baseURL
               +:+ "/files/" +:+ Js.template fileId +:+ "/url?expiry=24") config
    = inr data ∧
    t' = t ++ [EvCall FnGetSignedUrl;
               EvAxiosGet (Js.default_param baseURL default_baseURL
                           +:+ "/files/" +:+ Js.template fileId +:+ "/url?expiry=24")
                 config] ∧
    ("Authorization", "Bearer " +:+ Js.template apiKey) ∈ headers config.
Proof.
  unfold getSignedUrl.
  unfold mbind, M_bind, bind, try_catch, emit, settle, throw; simpl.
  change (pretty 24) with "24".
  intros Hrun.
  match type of Hrun with
  | context [axios_get ?u ?c] =>
      destruct (axios_get u c) eqn:Hanswer; [done|]; exists c
  end.
  injection Hrun as <- <-. rewrite <- ?List.app_assoc. repeat split; try done.
  simpl. apply elem_of_cons. by left.
Qed.

Lemma performOCR_returns apiKey url documentType model baseURL t data t' :
  performOCR apiKey url (Some documentType) (Some model) baseURL t = (inr data, t') →
  ∃ config,
    axios_post (Js.default_param baseURL default_baseURL +:+ "/ocr")
      (BodyJson (performOCR_body url documentType model)) config = inr data ∧
    t' = t ++ [EvCall FnPerformOCR;
               EvAxiosPost (Js.default_param baseURL default_baseURL +:+ "/ocr")
                 (BodyJson (performOCR_body url documentType model)) config] ∧
    ("Authorization", "Bearer " +:+ Js.template apiKey) ∈ headers config.
Proof.
  unfold performOCR.
  unfold mbind, M_bind, bind, try_catch, emit, settle, throw; simpl.
  intros Hrun.
  match type of Hrun with
  | context [axios_post ?u ?b ?c] =>
      destruct (axios_post u b c) eqn:Hanswer; [done|]; exists c
  end.
  injection Hrun as <- <-. rewrite <- ?List.app_assoc. repeat split; try done.
  simpl. apply elem_of_cons. right. apply elem_of_cons. by left.
Qed.

(** X10. An answered ingestion sends three requests under one base URL and one
    bearer token: the upload to [/files], then the GET of
    [/files/{id}/url?expiry=24] for the [id] of the upload answer, then
    the POST to [/ocr] of the [url] of the signed URL answer, with the
    document type of the file and the model of the configuration. *)
Theorem requests_of_an_ingestion req file t ocrResult t' :
  Answered req file t ocrResult t' →
  ∃ ocrConfig apiKey baseURL mistralFile signedUrlResponse dl c1 c2 c3,
    req_app_locals_ocr req = Some ocrConfig ∧
    t' = t ++ dl ∧
    requests dl
    = [ReqPost (Js.default_param baseURL "https://api.mistral.ai/v1" +:+ "/files")
         (BodyForm [FieldValue "purpose" "ocr";
                    FieldFile "file" (file_path file)
                      (actualFileName (file_path file) (file_originalname file))])
         c1;
       ReqGet (Js.default_param baseURL "https://api.mistral.ai/v1"
               +:+ "/files/" +:+ Js.template (data_id mistralFile) +:+ "/url?expiry=24")
         c2;
       ReqPost (Js.default_param baseURL "https://api.mistral.ai/v1" +:+ "/ocr")
         (BodyJson (performOCR_body (data_url signedUrlResponse)
                      (uploadMistralOCR_documentType file)
                      (uploadMistralOCR_model ocrConfig)))
         c3] ∧
    axios_post (Js.default_param baseURL "https://api.mistral.ai/v1" +:+ "/files")
      (BodyForm [FieldValue "purpose" "ocr";
                 FieldFile "file" (file_path file)
                   (actualFileName (file_path file) (file_originalname file))])
      c1 = inr mistralFile ∧
    axios_get (Js.default_param baseURL "https://api.mistral.ai/v1"
               +:+ "/files/" +:+ Js.template (data_id mistralFile) +:+ "/url?expiry=24")
      c2 = inr signedUrlResponse ∧
    axios_post (Js.default_param baseURL "https://api.mistral.ai/v1" +:+ "/ocr")
      (BodyJson (performOCR_body (data_url signedUrlResponse)
                   (uploadMistralOCR_documentType file)
                   (uploadMistralOCR_model ocrConfig)))
      c3 = inr ocrResult ∧
    Forall (λ c, ("Authorization", "Bearer " +:+ Js.template apiKey) ∈ headers c)
      [c1; c2; c3].
Proof.
  intros [cfg apiKey baseURL t1 mf t2 su t3 Hcfg Hcred Hup Hurl Hocr].
  apply uploadMistralOCR_credentials_delta in Hcred as (dl & -> & _ & Hql & _).
  apply uploadDocumentToMistral_returns in Hup as (c1 & H1 & -> & Hb1).
  apply getSignedUrl_returns in Hurl as (c2 & H2 & -> & Hb2).
  apply performOCR_returns in Hocr as (c3 & H3 & -> & Hb3).
  exists cfg, apiKey, baseURL, mf, su. eexists. exists c1, c2, c3.
  split; [done|]. split; [by rewrite <- !List.app_assoc|].
  rewrite !requests_app, Hql. simpl.
  repeat split; try done. by repeat constructor.
Qed.

End DataFlow.

(** *** Credentials from the secret store, and the model *)

Section Resolution.

Context `{W : World}.

Lemma uploadDocumentToMistral_sends filePath fileName apiKey baseURL t :
  ∃ config r d,
    uploadDocumentToMistral filePath fileName apiKey baseURL t
    = (r, t ++ [EvCall FnUploadDocumentToMistral;
                EvAxiosPost (Js.default_param baseURL default_baseURL +:+ "/files")
                  (BodyForm [FieldValue "purpose" "ocr";
                             FieldFile "file" filePath (actualFileName filePath fileName)])
                  config] ++ d) ∧
    headers config !! 0 = Some ("Authorization", "Bearer " +:+ Js.template apiKey).
Proof.
  unfold uploadDocumentToMistral, mbind, M_bind, bind, try_catch, emit, settle, throw.
  simpl. rewrite actualFileName_spec.
  match goal with |- context [axios_post ?u ?b ?c] =>
    exists c; destruct (axios_post u b c)
  end.
  all: eexists; eexists; split; [by rewrite <- ?List.app_assoc|done].
Qed.

Lemma after_upload_emits ocrConfig file apiKey baseURL mistralFile :
  emits (λ _, True)
    (signedUrlResponse ← getSignedUrl apiKey (data_id mistralFile) None baseURL;
     ocrResult ← performOCR apiKey (data_url signedUrlResponse)
                   (Some (uploadMistralOCR_documentType file))
                   (Some (uploadMistralOCR_model ocrConfig)) baseURL;
     pages ← match data_pages ocrResult with
             | Some pages => mret pages
             | None => throw (TypeError "Cannot read properties of undefined (reading 'forEach')")
             end;
     mret (uploadMistralOCR_aggregate file pages)).
Proof.
  apply emits_bind; [eapply emits_weaken; [|apply getSignedUrl_emits]; done|intros su].
  apply emits_bind; [eapply emits_weaken; [|apply performOCR_emits]; done|intros ocr].
  apply emits_bind; [|intros pages; apply emits_ret].
  destruct (data_pages ocr); [apply emits_ret|apply emits_throw].
Qed.

(** What follows the credentials starts with the upload request. *)
Lemma stages_start_with_upload ocrConfig file apiKey baseURL t :
  ∃ config d,
    (try_catch (uploadMistralOCR_stages ocrConfig file apiKey baseURL)
       uploadMistralOCR_catch t).2
    = t ++ [EvCall FnUploadDocumentToMistral;
            EvAxiosPost (Js.default_param baseURL default_baseURL +:+ "/files")
              (BodyForm [FieldValue "purpose" "ocr";
                         FieldFile "file" (file_path file)
                           (actualFileName (file_path file) (file_originalname file))])
              config] ++ d ∧
    headers config !! 0 = Some ("Authorization", "Bearer " +:+ Js.template apiKey).
Proof.
  destruct (uploadDocumentToMistral_sends (file_path file) (file_originalname file)
              apiKey baseURL t) as (config & r & d & Hup & Hheader).
  exists config.
  unfold try_catch, uploadMistralOCR_stages.
  destruct r as [e|mistralFile].
  - rewrite (run_bind_throw _ _ _ _ _ Hup), uploadMistralOCR_catch_throws.
    eexists. split; [|done]. simpl. by rewrite <- !List.app_assoc.
  - rewrite (run_bind_ok _ _ _ _ _ Hup).
    match goal with |- context [match ?x with pair _ _ => _ end] =>
      destruct x as [r' t'] eqn:Hrest
    end.
    apply after_upload_emits in Hrest as (d' & -> & _).
    destruct r' as [e|out]; [rewrite uploadMistralOCR_catch_throws|];
      (eexists; split; [|done]); simpl; by rewrite <- !List.app_assoc.
Qed.

(** X11. When the base URL is left empty next to a literal API key, the literal
    is not used: both credentials are what the secret store answers under
    [OCR_API_KEY] and [OCR_BASEURL].  The upload then goes to the base URL
    of that answer, to [https://api.mistral.ai/v1] when the answer has
    none, under the stored key, or under [Bearer undefined] when the
    answer has no key: an absent key does not stop the ingestion. *)
Theorem empty_base_url_sends_stored_credentials
    req file ocrConfig key authValues t :
  req_app_locals_ocr req = Some ocrConfig →
  ocr_apiKey ocrConfig = Some key →
  envVarRegex_test key = false →
  envVarRegex_test (config_baseURL ocrConfig) = false →
  Js.trim (config_baseURL ocrConfig) = "" →
  loadAuthValues (req_user_id req) ["OCR_BASEURL"; "OCR_API_KEY"] {["OCR_BASEURL"]}
    = inr authValues →
  uploadMistralOCR_credentials req ocrConfig t
    = (inr (authValues !! "OCR_API_KEY", authValues !! "OCR_BASEURL"),
       t ++ [EvLoadAuthValues (req_user_id req)
               ["OCR_BASEURL"; "OCR_API_KEY"] {["OCR_BASEURL"]}]) ∧
  ∃ config d,
    (uploadMistralOCR req file t).2
    = t ++ [EvLoadAuthValues (req_user_id req)
              ["OCR_BASEURL"; "OCR_API_KEY"] {["OCR_BASEURL"]};
            EvCall FnUploadDocumentToMistral;
            EvAxiosPost
              (Js.default_param (authValues !! "OCR_BASEURL") "https://api.mistral.ai/v1"
               +:+ "/files")
              (BodyForm [FieldValue "purpose" "ocr";
                         FieldFile "file" (file_path file)
                           (actualFileName (file_path file) (file_originalname file))])
              config] ++ d ∧
    headers config !! 0
    = Some ("Authorization", "Bearer " +:+ Js.template (authValues !! "OCR_API_KEY")).
Proof.
  intros Hcfg Hkey Hk Hb Hempty Hload.
  assert (config_apiKey ocrConfig = key) as Hck.
  { unfold config_apiKey. by rewrite or_else_empty, Hkey. }
  assert (apiKeyVarName ocrConfig = "OCR_API_KEY") as Hkn.
  { unfold apiKeyVarName. by rewrite Hck, Hk. }
  assert (baseURLVarName ocrConfig = "OCR_BASEURL") as Hbn.
  { unfold baseURLVarName. by rewrite Hb. }
  pose proof (uploadMistralOCR_credentials_lookup req ocrConfig t) as Hcred.
  rewrite Hkn, Hbn, Hload in Hcred.
  specialize (Hcred (or_intror (or_intror (or_intror Hempty)))).
  split; [done|].
  rewrite (uploadMistralOCR_from_credentials _ file _ _ _ _ _ Hcfg Hcred).
  destruct (stages_start_with_upload ocrConfig file
              (authValues !! "OCR_API_KEY") (authValues !! "OCR_BASEURL")
              (t ++ [EvLoadAuthValues (req_user_id req)
                       ["OCR_BASEURL"; "OCR_API_KEY"] {["OCR_BASEURL"]}]))
    as (config & d & Hlog & Hheader).
  exists config, d. split; [|done]. rewrite Hlog. by rewrite <- !List.app_assoc.
Qed.

Lemma trimEnd_idempotent s : Js.trimEnd (Js.trimEnd s) = Js.trimEnd s.
Proof.
  induction s as [|c s IH]; [done|]. simpl.
  destruct (Js.trimEnd s) as [|c' t] eqn:Hs.
  - destruct (Js.is_whitespace c) eqn:Hc; [done|]. simpl. by rewrite Hc.
  - simpl in *. by rewrite IH.
Qed.

Lemma trimStart_trimEnd s :
  Js.trimStart s = s → Js.trimStart (Js.trimEnd s) = Js.trimEnd s.
Proof.
  destruct s as [|c s]; [done|]. simpl.
  destruct (Js.is_whitespace c) eqn:Hc.
  - intros Hs. exfalso.
    assert (String.length (Js.trimStart s) ≤ String.length s) as Hle.
    { clear. induction s as [|c s IH]; simpl; [lia|].
      destruct (Js.is_whitespace c); simpl; lia. }
    rewrite Hs in Hle. simpl in Hle. lia.
  - intros _. destruct (Js.trimEnd s); simpl; by rewrite Hc.
Qed.

Lemma trimStart_idempotent s : Js.trimStart (Js.trimStart s) = Js.trimStart s.
Proof.
  induction s as [|c s IH]; [done|]. simpl.
  destruct (Js.is_whitespace c) eqn:Hc; [done|]. simpl. by rewrite Hc.
Qed.

Lemma trim_idempotent s : Js.trim (Js.trim s) = Js.trim s.
Proof.
  unfold Js.trim.
  rewrite (trimStart_trimEnd (Js.trimStart s)) by apply trimStart_idempotent.
  apply trimEnd_idempotent.
Qed.

(** X12. The model of lines 169-172.  A placeholder is replaced by the value
    it stands for.  Any other configuration gives a model that is not
    empty and has no white space around it: the configured string
    trimmed, or [mistral-ocr-latest] when that is empty, as when no model
    is configured. *)
Theorem model_resolution ocrConfig :
  (envVarRegex_test (Js.or_else (ocr_mistralModel ocrConfig) "") = true →
   uploadMistralOCR_model ocrConfig
   = extractEnvVariable (Js.or_else (ocr_mistralModel ocrConfig) "")) ∧
  (envVarRegex_test (Js.or_else (ocr_mistralModel ocrConfig) "") = false →
   uploadMistralOCR_model ocrConfig ≠ "" ∧
   Js.trim (uploadMistralOCR_model ocrConfig) = uploadMistralOCR_model ocrConfig ∧
   (Js.trim (default "" (ocr_mistralModel ocrConfig)) = "" →
    uploadMistralOCR_model ocrConfig = "mistral-ocr-latest") ∧
   (Js.trim (default "" (ocr_mistralModel ocrConfig)) ≠ "" →
    uploadMistralOCR_model ocrConfig = Js.trim (default "" (ocr_mistralModel ocrConfig)))).
Proof.
  unfold uploadMistralOCR_model. rewrite or_else_empty.
  split; [by intros ->|]. intros ->.
  unfold Js.or_else, Js.truthy.
  destruct (String.eqb_spec (Js.trim (default "" (ocr_mistralModel ocrConfig))) "")
    as [Hblank|Hmodel]; simpl.
  - rewrite Hblank. repeat split; done.
  - repeat split; try done. apply trim_idempotent.
Qed.

End Resolution.

(** *** More on the aggregated output and the media kind *)

Section OutputSize.

Context `{W : World}.

Lemma length_join (l : list string) :
  String.length (join l) = sum_list (String.length <$> l).
Proof.
  induction l as [|s l IH]; [done|].
  rewrite join_cons, string_length_app, IH. done.
Qed.

Lemma length_page_block numbered n page :
  String.length (page_block numbered n page)
  = (if numbered then 8 + String.length (pretty n) else 0)
    + String.length (page_markdown page) + 2.
Proof.
  unfold page_block, page_heading, blank_line.
  destruct numbered; rewrite !string_length_app; simpl; lia.
Qed.

Lemma sum_list_imap_le {A} (f g : nat → A → nat) (l : list A) :
  (∀ i x, f i x ≤ g i x) → sum_list (imap f l) ≤ sum_list (imap g l).
Proof.
  revert f g. induction l as [|x l IH]; intros f g Hfg; simpl; [lia|].
  specialize (IH (f ∘ S) (g ∘ S) (λ i y, Hfg (S i) y)). specialize (Hfg 0 x). lia.
Qed.

Lemma sum_list_imap_const {A} (l : list A) (k : nat) :
  sum_list (imap (λ _ _, k) l) = k * length l.
Proof.
  induction l as [|x l IH]; simpl; [lia|].
  change ((λ (_ : nat) (_ : A), k) ∘ S) with (λ (_ : nat) (_ : A), k). rewrite IH. lia.
Qed.

(** X13. [bytes] can be computed from the pages: 4 for every code unit of
    markdown, 8 for the blank line after each page and, with more than one
    page, 4 for every code unit of the heading of each page ([# PAGE ],
    the decimal page number, a line feed).  So [bytes] is at least 8 per
    page, and the text is empty, and [bytes] 0, only when there is no
    page. *)
Theorem bytes_of_pages req file t pages t' :
  Ingests req file t pages t' →
  ∃ out,
    uploadMistralOCR req file t = (inr out, t') ∧
    bytes out
    = 4 * sum_list
            (imap (λ i page,
                     (if 1 <? length pages
                      then 8 + String.length (pretty (i + 1)) else 0)
                     + String.length (page_markdown page) + 2) pages) ∧
    8 * length pages ≤ bytes out ∧
    (text out = "" ↔ pages = []) ∧
    (bytes out = 0 ↔ pages = []).
Proof.
  intros H. eexists. split; [by apply Ingests_sound|].
  rewrite uploadMistralOCR_aggregate_blocks. cbv zeta.
  cbn [bytes text].
  set (blocks := imap (λ i, page_block (1 <? length pages) (i + 1)) pages).
  assert (String.length (join blocks)
          = sum_list (imap (λ i page,
                       (if 1 <? length pages
                        then 8 + String.length (pretty (i + 1)) else 0)
                       + String.length (page_markdown page) + 2) pages)) as Hlen.
  { rewrite length_join. subst blocks. rewrite fmap_imap. f_equal.
    apply imap_ext. intros i page _. apply length_page_block. }
  assert (2 * length pages ≤ String.length (join blocks)) as Hlow.
  { rewrite Hlen, <- (sum_list_imap_const pages 2).
    apply sum_list_imap_le. intros i page. lia. }
  split; [lia|]. split; [lia|].
  assert (pages = [] ↔ length pages = 0) as Hnil.
  { split; [by intros ->|]. by destruct pages. }
  split.
  - split.
    + intros Htext. rewrite Htext in Hlow. simpl in Hlow. apply Hnil. lia.
    + intros ->. done.
  - split.
    + intros Hbytes. apply Hnil. lia.
    + intros ->. done.
Qed.

Lemma elem_of_concat {A} (x : A) (ls : list (list A)) :
  x ∈ concat ls ↔ ∃ l, x ∈ l ∧ l ∈ ls.
Proof.
  induction ls as [|l ls IH]; simpl.
  - split; [by intros ?%elem_of_nil|]. by intros (l & _ & ?%elem_of_nil).
  - rewrite elem_of_app, IH. split.
    + intros [Hx|(l' & Hx & Hl')]; [exists l|exists l']; split; try done;
        apply elem_of_cons; auto.
    + intros (l' & Hx & [->|Hl']%elem_of_cons); eauto.
Qed.

Lemma length_omap_le {A B} (f : A → option B) (l : list A) :
  length (omap f l) ≤ length l.
Proof. induction l as [|x l IH]; csimpl; [lia|]. destruct (f x); csimpl; lia. Qed.

(** X14. No image of the output is the empty string, the output has at most
    as many images as the pages have image entries, and a string is among
    the images exactly when it is the non-empty [image_base64] of an entry
    of some page. *)
Theorem images_are_payloads req file t pages t' :
  Ingests req file t pages t' →
  ∃ out,
    uploadMistralOCR req file t = (inr out, t') ∧
    Forall (λ payload, payload ≠ "") (images out) ∧
    length (images out) ≤ sum_list (page_image_count <$> pages) ∧
    ∀ payload,
      payload ∈ images out ↔
      payload ≠ "" ∧
      ∃ page image,
        page ∈ pages ∧ image ∈ default [] (page_images page) ∧
        image_base64 image = Some payload.
Proof.
  intros H. eexists. split; [by apply Ingests_sound|].
  rewrite uploadMistralOCR_aggregate_blocks. cbv zeta. cbn [images].
  assert (∀ image payload,
            image_payload image = Some payload ↔
            payload ≠ "" ∧ image_base64 image = Some payload) as Hpayload.
  { intros image payload. unfold image_payload.
    destruct (image_base64 image) as [b|]; [|by split; [|intros [_ ?]]].
    destruct (String.eqb_spec b "") as [->|Hb]; split.
    - done.
    - by intros [Hne [= <-]].
    - by intros [= <-].
    - by intros [_ [= <-]]. }
  assert (∀ payload,
            payload ∈ concat (page_payloads <$> pages) ↔
            payload ≠ "" ∧
            ∃ page image,
              page ∈ pages ∧ image ∈ default [] (page_images page) ∧
              image_base64 image = Some payload) as Hmem.
  { intros payload. rewrite elem_of_concat. split.
    - intros (l & Hin & (page & -> & Hpage)%list_elem_of_fmap).
      unfold page_payloads in Hin.
      apply list_elem_of_omap in Hin as (image & Himage & Hsome).
      apply Hpayload in Hsome as [Hne Hsome]. eauto 10.
    - intros (Hne & page & image & Hpage & Himage & Hsome).
      exists (page_payloads page). split.
      + unfold page_payloads. apply list_elem_of_omap. exists image.
        split; [done|]. by apply Hpayload.
      + apply list_elem_of_fmap. eauto. }
  split; [|split; [|done]].
  - apply Forall_forall. intros payload Hin. by apply Hmem in Hin as [? _].
  - clear. induction pages as [|page rest IH]; csimpl; [lia|].
    rewrite length_app. unfold page_payloads at 1, page_image_count at 1.
    pose proof (length_omap_le image_payload (default [] (page_images page))). lia.
Qed.

End OutputSize.

Section Extensions.

Lemma has_dot_app s1 s2 : has_dot (s1 +:+ s2) = has_dot s1 || has_dot s2.
Proof.
  unfold has_dot. induction s1 as [|c s1 IH]; [done|].
  rewrite string_app_cons. simpl. by rewrite IH, orb_assoc.
Qed.

Lemma extension_last_dot stem e :
  has_dot e = false → extension (stem +:+ "." +:+ e) = Some e.
Proof.
  intros He. induction stem as [|c stem IH].
  - rewrite string_app_empty_l, string_app_cons, string_app_empty_l. simpl.
    by rewrite (extension_no_dot _ He).
  - rewrite string_app_cons. simpl. by rewrite IH.
Qed.

(** X15. Only what follows the last dot of the name counts.  A file named
    [stem.e], where [e] has no dot, is an image exactly when its MIME type
    in lower case starts with [image] or [e] is a listed extension up to
    case, whatever the stem, the empty one included; a file whose name has
    no dot is an image exactly when its MIME type says so. *)
Theorem last_extension_decides path stem e name mimetype :
  (has_dot e = false →
   isImage {| file_path := path;
              file_originalname := Some (stem +:+ "." +:+ e);
              file_mimetype := mimetype |}
   = Js.startsWith (Js.toLowerCase (Js.or_else mimetype "")) "image"
     || existsb (String.eqb (Js.toLowerCase e)) image_extensions) ∧
  (has_dot name = false →
   isImage {| file_path := path;
              file_originalname := Some name;
              file_mimetype := mimetype |}
   = Js.startsWith (Js.toLowerCase (Js.or_else mimetype "")) "image").
Proof.
  unfold isImage. cbn [file_mimetype file_originalname].
  rewrite !image_extension_regex_test, !(or_else_empty (Some _)).
  change (default "" (Some (stem +:+ "." +:+ e))) with (stem +:+ "." +:+ e).
  change (default "" (Some name)) with name.
  unfold has_image_extension. split.
  - intros He. by rewrite (extension_last_dot _ _ He).
  - intros Hname. by rewrite (extension_no_dot _ Hname), orb_false_r.
Qed.

End Extensions.

(** *** Counting the headings in the text *)

Section Occurrences.

Lemma prefix_before_separator pattern a c b :
  has_unit c pattern = false →
  String.prefix pattern (a +:+ String c b) = String.prefix pattern a.
Proof.
  revert a. induction pattern as [|p pattern IH]; intros a Hc.
  - by destruct a.
  - simpl in Hc. apply orb_false_iff in Hc as [Hp Hc].
    destruct a as [|x a].
    + rewrite string_app_empty_l. simpl.
      destruct (ascii_dec p c) as [->|]; [|done].
      by rewrite Ascii.eqb_refl in Hp.
    + rewrite string_app_cons. simpl. destruct (ascii_dec p x); [|done]. by apply IH.
Qed.

Lemma occurrences_separator pattern a c b :
  pattern ≠ "" →
  has_unit c pattern = false →
  occurrences pattern (a +:+ String c b) = occurrences pattern a + occurrences pattern b.
Proof.
  intros Hne Hc. induction a as [|x a IH].
  - rewrite string_app_empty_l. simpl.
    destruct pattern as [|p pattern]; [done|]. simpl in *.
    apply orb_false_iff in Hc as [Hp _].
    destruct (ascii_dec p c) as [->|]; [|done].
    by rewrite Ascii.eqb_refl in Hp.
  - rewrite string_app_cons.
    change (occurrences pattern (String x (a +:+ String c b)))
      with ((if String.prefix pattern (String x (a +:+ String c b)) then 1 else 0)
            + occurrences pattern (a +:+ String c b)).
    change (occurrences pattern (String x a))
      with ((if String.prefix pattern (String x a) then 1 else 0)
            + occurrences pattern a).
    rewrite <- string_app_cons, prefix_before_separator, IH by done. lia.
Qed.

Lemma occurrences_without_first p pattern s :
  has_unit p s = false → occurrences (String p pattern) s = 0.
Proof.
  induction s as [|x s IH]; [done|]. simpl.
  intros [Hp Hs]%orb_false_iff.
  destruct (ascii_dec p x) as [->|]; [by rewrite Ascii.eqb_refl in Hp|].
  by rewrite IH.
Qed.

Lemma has_unit_app c s1 s2 : has_unit c (s1 +:+ s2) = has_unit c s1 || has_unit c s2.
Proof.
  induction s1 as [|x s1 IH]; [done|].
  rewrite string_app_cons. simpl. by rewrite IH, orb_assoc.
Qed.

Lemma pretty_N_char_digit x : is_digit (pretty_N_char x) = true.
Proof. unfold pretty_N_char. by repeat case_match. Qed.

Lemma pretty_N_go_digits x s : digits s = true → digits (pretty_N_go x s) = true.
Proof.
  revert s. induction (N.lt_wf_0 x) as [x _ IH]. intros s Hs.
  destruct (decide (x = 0)%N) as [->|Hx]; [by rewrite pretty_N_go_0|].
  rewrite pretty_N_go_step by lia. apply IH.
  - apply N.div_lt; lia.
  - simpl. by rewrite pretty_N_char_digit.
Qed.

Lemma pretty_nat_digits (n : nat) : digits (pretty n) = true.
Proof.
  unfold pretty, pretty_nat, pretty, pretty_N.
  case_decide; [done|]. by apply pretty_N_go_digits.
Qed.

Lemma digits_without c s : is_digit c = false → digits s = true → has_unit c s = false.
Proof.
  intros Hc. induction s as [|x s IH]; [done|]. simpl.
  intros [Hx Hs]%andb_true_iff. rewrite (IH Hs), orb_false_r.
  destruct (Ascii.eqb_spec c x) as [->|]; [|done]. congruence.
Qed.

Lemma occurrences_heading (n : nat) :
  occurrences "# PAGE " ("# PAGE " +:+ pretty n) = 1.
Proof.
  change ("# PAGE " +:+ pretty n) with (String "#" (" PAGE " +:+ pretty n)).
  change (occurrences "# PAGE " (String "#" (" PAGE " +:+ pretty n)))
    with ((if String.prefix "# PAGE " ("# PAGE " +:+ pretty n) then 1 else 0)
          + occurrences "# PAGE " (" PAGE " +:+ pretty n)).
  rewrite occurrences_without_first.
  - rewrite <- (string_app_empty_r "# PAGE ") at 1.
    assert (∀ a b, String.prefix (a +:+ "") (a +:+ b) = true) as ->; [|done].
    intros a b. induction a as [|x a IH]; [by destruct b|].
    rewrite !string_app_cons. simpl. by destruct (ascii_dec x x).
  - rewrite has_unit_app. simpl.
    by rewrite (digits_without "#" _ eq_refl (pretty_nat_digits n)).
Qed.

Lemma occurrences_skip pattern c b :
  pattern ≠ "" →
  has_unit c pattern = false →
  occurrences pattern (String c b) = occurrences pattern b.
Proof.
  intros Hne Hc.
  change (String c b) with ("" +:+ String c b).
  rewrite occurrences_separator by done.
  destruct pattern; [done|]. by simpl.
Qed.

Lemma occurrences_page_block numbered (n : nat) page rest :
  occurrences "# PAGE " (page_markdown page) = 0 →
  occurrences "# PAGE " (page_block numbered n page +:+ rest)
  = (if numbered then 1 else 0) + occurrences "# PAGE " rest.
Proof.
  intros Hmd. unfold page_block, page_heading, blank_line, Js.LF.
  assert (has_unit (ascii_of_N 10) "# PAGE " = false) as Hlf by done.
  assert ("# PAGE " ≠ "") as Hne by done.
  destruct numbered.
  - rewrite !string_app_assoc.
    rewrite <- (string_app_assoc "# PAGE " (pretty n)).
    remember ("# PAGE " +:+ pretty n) as heading eqn:Hheading.
    rewrite !string_app_cons, !string_app_empty_l.
    rewrite (occurrences_separator _ heading) by done.
    rewrite (occurrences_separator _ (page_markdown page)) by done.
    rewrite occurrences_skip by done.
    subst heading. rewrite occurrences_heading, Hmd. done.
  - rewrite !string_app_assoc, !string_app_cons, !string_app_empty_l.
    rewrite (occurrences_separator _ (page_markdown page)) by done.
    rewrite occurrences_skip by done.
    by rewrite Hmd.
Qed.

Lemma occurrences_blocks numbered (f : nat → nat) (pages : list OcrPage) :
  Forall (λ page, occurrences "# PAGE " (page_markdown page) = 0) pages →
  occurrences "# PAGE " (join (imap (λ i, page_block numbered (f i)) pages))
  = if numbered then length pages else 0.
Proof.
  intros Hpages. revert f.
  induction Hpages as [|page pages Hpage _ IH]; intros f.
  - by destruct numbered.
  - rewrite imap_cons, join_cons, (occurrences_page_block _ _ _ _ Hpage).
    change ((λ i, page_block numbered (f i)) ∘ S)
      with (λ i, page_block numbered (f (S i))).
    rewrite (IH (λ i, f (S i))). by destruct numbered.
Qed.

Context `{W : World}.

(** X16. When no page's markdown contains [# PAGE ], the text of an N-page
    answer contains [# PAGE ] exactly N times if N > 1, once per heading,
    and not at all if N is 0 or 1. *)
Theorem heading_occurrences req file t pages t' :
  Ingests req file t pages t' →
  Forall (λ page, occurrences "# PAGE " (page_markdown page) = 0) pages →
  ∃ out,
    uploadMistralOCR req file t = (inr out, t') ∧
    occurrences "# PAGE " (text out) = (if 1 <? length pages then length pages else 0).
Proof.
  intros H Hpages. eexists. split; [by apply Ingests_sound|].
  rewrite uploadMistralOCR_aggregate_blocks. cbv zeta. cbn [text].
  apply (occurrences_blocks _ (λ i, i + 1) _ Hpages).
Qed.

End Occurrences.


(** *** The further properties on the sample worlds *)

Lemma failure_is_reported_once_witness :
  ∃ d,
    (@uploadMistralOCR Sample.upload_rejected (Sample.request Sample.literal_config)
       Sample.a_pdf []).2 = [] ++ d ∧
    ∃ cause,
      NewError "Error uploading document to Mistral OCR API: socket hang up"
      = NewError (@logAxiosError Sample.upload_rejected cause
                    "Error uploading document to Mistral OCR API") ∧
      reports d = [(cause, "Error uploading document to Mistral OCR API")].
Proof.
  apply (@failure_is_reported_once Sample.upload_rejected
           (Sample.request Sample.literal_config) Sample.a_pdf []
           (inl (NewError "Error uploading document to Mistral OCR API: socket hang up"))).
  by vm_compute.
Defined.

Lemma stages_run_in_order_witness :
  ∃ dl ds,
    Sample.answered_log = [] ++ dl ++ ds ∧
    length dl ≤ 1 ∧ length (lookups dl) = length dl ∧
    lookups ds = [] ∧
    calls (dl ++ ds) `prefix_of` [FnUploadDocumentToMistral; FnGetSignedUrl; FnPerformOCR] ∧
    length (requests (dl ++ ds)) = length (calls (dl ++ ds)) ∧
    (is_Some (Some Sample.hello_output) →
     calls (dl ++ ds) = [FnUploadDocumentToMistral; FnGetSignedUrl; FnPerformOCR]).
Proof.
  apply (@stages_run_in_order (Sample.answering [Sample.hello_page])
           (Sample.request Sample.literal_config) Sample.a_pdf []
           (inr Sample.hello_output) Sample.answered_log).
  by vm_compute.
Defined.

Lemma missing_configuration_throws_witness :
  ∃ message,
    @uploadMistralOCR (Sample.answering []) Sample.bare_request Sample.a_pdf []
    = (inl (NewError (@logAxiosError (Sample.answering []) (TypeError message)
                        "Error uploading document to Mistral OCR API")),
       [] ++ [EvLogAxiosError (TypeError message)
                "Error uploading document to Mistral OCR API"]).
Proof.
  apply (@missing_configuration_throws (Sample.answering []) Sample.bare_request
           Sample.a_pdf []).
  reflexivity.
Defined.

Lemma signed_url_failure_stops_ingestion_witness :
  ∃ d,
    @uploadMistralOCR Sample.url_rejected (Sample.request Sample.literal_config)
      Sample.a_pdf []
    = (inl (NewError
              (@logAxiosError Sample.url_rejected
                 (Rejected "Request failed with status code 404")
                 "Error uploading document to Mistral OCR API")), [] ++ d) ∧
    calls d = [FnUploadDocumentToMistral; FnGetSignedUrl] ∧
    (FnPerformOCR ∉ calls d) ∧
    length (requests d) = 2.
Proof.
  eapply (@signed_url_failure_stops_ingestion Sample.url_rejected);
    [reflexivity | vm_compute; reflexivity ..].
Defined.

Lemma ocr_failure_stops_ingestion_witness :
  ∃ d,
    @uploadMistralOCR Sample.ocr_rejected (Sample.request Sample.literal_config)
      Sample.a_pdf []
    = (inl (NewError
              (@logAxiosError Sample.ocr_rejected
                 (Rejected "Request failed with status code 422")
                 "Error uploading document to Mistral OCR API")), [] ++ d) ∧
    calls d = [FnUploadDocumentToMistral; FnGetSignedUrl; FnPerformOCR] ∧
    length (requests d) = 3.
Proof.
  eapply (@ocr_failure_stops_ingestion Sample.ocr_rejected);
    [reflexivity | vm_compute; reflexivity ..].
Defined.

Lemma Sample_without_pages_answered :
  @Answered Sample.ocr_without_pages (Sample.request Sample.literal_config)
    Sample.a_pdf [] Sample.url_answer Sample.answered_log.
Proof. econstructor; [reflexivity | vm_compute; reflexivity ..]. Qed.

Lemma answer_without_pages_throws_witness :
  ∃ message,
    @uploadMistralOCR Sample.ocr_without_pages (Sample.request Sample.literal_config)
      Sample.a_pdf []
    = (inl (NewError (@logAxiosError Sample.ocr_without_pages (TypeError message)
                        "Error uploading document to Mistral OCR API")),
       Sample.answered_log
       ++ [EvLogAxiosError (TypeError message)
             "Error uploading document to Mistral OCR API"]).
Proof.
  apply (@answer_without_pages_throws Sample.ocr_without_pages
           (Sample.request Sample.literal_config) Sample.a_pdf []
           Sample.url_answer Sample.answered_log).
  - apply Sample_without_pages_answered.
  - reflexivity.
Defined.

Lemma Sample_answering_answered pages :
  @Answered (Sample.answering pages) (Sample.request Sample.literal_config)
    Sample.a_pdf [] (Sample.ocr_answer pages) Sample.answered_log.
Proof. econstructor; [reflexivity | vm_compute; reflexivity ..]. Qed.

Lemma requests_of_an_ingestion_witness :
  ∃ dl mistralFile signedUrlResponse,
    Sample.answered_log = [] ++ dl ∧
    length (requests dl) = 3 ∧
    (∃ url body config,
       @axios_post (Sample.answering [Sample.hello_page]) url body config
       = inr mistralFile) ∧
    (∃ url config,
       @axios_get (Sample.answering [Sample.hello_page]) url config
       = inr signedUrlResponse).
Proof.
  destruct (@requests_of_an_ingestion (Sample.answering [Sample.hello_page])
              (Sample.request Sample.literal_config) Sample.a_pdf []
              (Sample.ocr_answer [Sample.hello_page]) Sample.answered_log
              (Sample_answering_answered [Sample.hello_page]))
    as (cfg & apiKey & baseURL & mf & su & dl & c1 & c2 & c3
        & Hcfg & Hlog & Hreq & H1 & H2 & H3 & Hbearer).
  exists dl, mf, su. split; [exact Hlog|]. split; [by rewrite Hreq|].
  split; [exact (ex_intro _ _ (ex_intro _ _ (ex_intro _ c1 H1)))
         |exact (ex_intro _ _ (ex_intro _ c2 H2))].
Defined.

Lemma empty_base_url_sends_stored_credentials_witness :
  ∃ config d,
    (@uploadMistralOCR (Sample.stored []) (Sample.request Sample.key_only_config)
       Sample.a_pdf []).2
    = [] ++ [EvLoadAuthValues "user-1" ["OCR_BASEURL"; "OCR_API_KEY"] {["OCR_BASEURL"]};
             EvCall FnUploadDocumentToMistral;
             EvAxiosPost "https://api.mistral.ai/v1/files"
               (BodyForm [FieldValue "purpose" "ocr";
                          FieldFile "file" "/tmp/upload-1" "a.pdf"])
               config] ++ d ∧
    headers config !! 0 = Some ("Authorization", "Bearer sk-stored").
Proof.
  apply (@empty_base_url_sends_stored_credentials (Sample.stored [])
           (Sample.request Sample.key_only_config) Sample.a_pdf
           Sample.key_only_config "sk-literal" Sample.key_store []);
    by vm_compute.
Defined.

Lemma bytes_of_pages_witness :
  ∃ out,
    @uploadMistralOCR (Sample.answering Sample.three_pages)
      (Sample.request Sample.literal_config) Sample.a_pdf []
    = (inr out, Sample.answered_log) ∧
    bytes out = 176 ∧
    text out ≠ "".
Proof.
  destruct (@bytes_of_pages (Sample.answering Sample.three_pages)
              (Sample.request Sample.literal_config) Sample.a_pdf []
              Sample.three_pages Sample.answered_log
              (Sample_answering_ingests Sample.three_pages))
    as (out & Hrun & Hbytes & _ & Htext & _).
  exists out. split; [exact Hrun|]. split; [exact Hbytes|].
  intros Hempty. by apply Htext in Hempty.
Defined.

Lemma images_are_payloads_witness :
  ∃ out,
    @uploadMistralOCR (Sample.answering Sample.three_pages)
      (Sample.request Sample.literal_config) Sample.a_pdf []
    = (inr out, Sample.answered_log) ∧
    Forall (λ payload, payload ≠ "") (images out) ∧
    length (images out) ≤ 5.
Proof.
  destruct (@images_are_payloads (Sample.answering Sample.three_pages)
              (Sample.request Sample.literal_config) Sample.a_pdf []
              Sample.three_pages Sample.answered_log
              (Sample_answering_ingests Sample.three_pages))
    as (out & Hrun & Hne & Hlen & _).
  exists out. split; [exact Hrun|]. split; [exact Hne|exact Hlen].
Defined.

Lemma heading_occurrences_witness :
  ∃ out,
    @uploadMistralOCR (Sample.answering Sample.three_pages)
      (Sample.request Sample.literal_config) Sample.a_pdf []
    = (inr out, Sample.answered_log) ∧
    occurrences "# PAGE " (text out) = 3.
Proof.
  apply (@heading_occurrences (Sample.answering Sample.three_pages)
           (Sample.request Sample.literal_config) Sample.a_pdf []
           Sample.three_pages Sample.answered_log).
  - apply Sample_answering_ingests.
  - by repeat constructor.
Defined.

Lemma model_resolution_witness :
  @uploadMistralOCR_model (Sample.answering []) Sample.key_only_config = "mistral-ocr-2503".
Proof.
  destruct (@model_resolution (Sample.answering []) Sample.key_only_config)
    as (_ & Hliteral).
  destruct (Hliteral eq_refl) as (_ & _ & _ & Htrimmed).
  rewrite Htrimmed; by vm_compute.
Defined.

Lemma last_extension_decides_witness :
  isImage {| file_path := "/tmp/upload-4";
             file_originalname := Some ("archive.tar" +:+ "." +:+ "JPeG");
             file_mimetype := None |} = true.
Proof.
  destruct (last_extension_decides "/tmp/upload-4" "archive.tar" "JPeG" "" None)
    as (Hlast & _).
  by rewrite Hlast.
Defined.
